(** * Reloading persisted detectors and evaluating them on a test set

    A shallow embedding of [examples/speedup/main_reload_idv.py]: the
    reconstruction of a projection and a detector from two flat parameter
    mappings, the stage-timed evaluation [_test], the repeat-averaging
    [evaluate_model], the size helpers and the five-repeat loop of [main].

    Conventions of the embedding.
    - Python's numbers are exact rationals extended with NaN ([num]); the
      rounding of binary64 arithmetic is outside the model.
    - A [dict] is a [gmap]; a missing key raises [KeyError].
    - Code that lives outside the file (the classes of [kjl.model], the
      profiler, [load_data], [os.path.getsize], ...) is a field of the
      record [Externals]; it acts on an abstract [World] and may raise.
    - Exceptions are results: [Ok a] or [Raise e], threaded with the state. *)

From Stdlib Require Import ZArith QArith Qcanon Lia List Ascii.
From stdpp Require Import gmap strings list fin_maps pretty.

Open Scope string_scope.
Open Scope list_scope.

(** ** Numbers *)

Module Num.

(** A Python or numpy number: a finite value or NaN (what numpy returns
    for [0/0], as in the mean of an empty list). *)
Inductive num : Type :=
| Finite (q : Qc)
| NaN.

Definition of_Z (z : Z) : num := Finite (Q2Qc (inject_Z z)).
Definition of_nat (n : nat) : num := of_Z (Z.of_nat n).

Definition zero : num := of_Z 0.

Definition add (x y : num) : num :=
  match x, y with
  | Finite a, Finite b => Finite (a + b)%Qc
  | _, _ => NaN
  end.

Definition sub (x y : num) : num :=
  match x, y with
  | Finite a, Finite b => Finite (a - b)%Qc
  | _, _ => NaN
  end.

Definition mul (x y : num) : num :=
  match x, y with
  | Finite a, Finite b => Finite (a * b)%Qc
  | _, _ => NaN
  end.

(** Division. The divisors of the source's own [/=] are the non-zero
    constants 1e3 and 1e6; the zero divisor only occurs inside numpy
    ([0/0] for an empty mean or an absent class), where it gives NaN. *)
Definition div (x y : num) : num :=
  match x, y with
  | Finite a, Finite b =>
      if decide (b = Q2Qc 0) then NaN else Finite (a / b)%Qc
  | _, _ => NaN
  end.

(** [1e+3] and [1e+6]. *)
Definition _1e3 : num := of_Z 1000.
Definition _1e6 : num := of_Z 1000000.

(** Python's built-in [sum(l)]: left to right from 0. *)
Definition sum (l : list num) : num := fold_left add l zero.

(** Modelled from the spec: [np.mean] is numpy's. "The arithmetic mean":
    the sum over the number of entries; NaN when there is none. *)
Definition mean (l : list num) : num := div (sum l) (of_nat (List.length l)).

End Num.

Import Num.

Declare Scope num_scope.
Delimit Scope num_scope with num.
Bind Scope num_scope with num.
Infix "+" := Num.add : num_scope.
Infix "-" := Num.sub : num_scope.
Infix "*" := Num.mul : num_scope.
Infix "/" := Num.div : num_scope.

(** ** format_unit (lines 191-210) *)

Definition format_unit (size : num) (unit : string) : num :=
  if decide (unit = "KB") then (size / _1e3)%num
  else if decide (unit = "MB") then (size / _1e6)%num
  else size.

(** ** Strings *)

(** Python's [sub in s] on two [str]. *)
Fixpoint str_in (sub s : string) : bool :=
  if String.prefix sub s then true
  else match s with
       | EmptyString => false
       | String _ s' => str_in sub s'
       end.

(** [str(i)] for a non-negative [int]. *)
Definition str_of_nat (i : nat) : string := pretty i.

(** [f"{b}"] for a [bool]. *)
Definition str_of_bool (b : bool) : string := if b then "True" else "False".

(** [s.endswith('/')]. *)
Definition ends_with_slash (s : string) : bool :=
  match String.length s with
  | O => false
  | S n => match String.get n s with
           | Some c => if decide (c = "/"%char) then true else false
           | None => false
           end
  end.

(** [os.path.join(a, *p)] on a POSIX system: a component that starts
    with a slash restarts the path, the others are appended after a
    slash unless the path is empty or ends with one. *)
Definition pth_join (a : string) (p : list string) : string :=
  fold_left
    (fun path b =>
       if String.prefix "/" b then b
       else if decide (path = "") then path +:+ b
       else if ends_with_slash path then path +:+ b
       else path +:+ "/" +:+ b)
    p a.

(** ** Exceptions and the state-and-error monad *)

(** Instances of [Exception], the class the handler of [main] catches.
    An interrupt of the process, which is not one, is outside the model. *)
Inductive exn : Type :=
| KeyError (key : string)
| NotImplementedError
| TypeError (msg : string)
| AttributeError (msg : string)
| ValueError (msg : string)
| OtherException (name : string).

Inductive result (A : Type) : Type :=
| Ok (a : A)
| Raise (e : exn).
Arguments Ok {A} a.
Arguments Raise {A} e.

Definition is_ok {A} (r : result A) : bool :=
  match r with Ok _ => true | Raise _ => false end.

(** A computation over a state [S]: it returns or raises, and in both
    cases leaves a state behind (what was mutated before a raise stays
    mutated). *)
Definition M (S A : Type) : Type := S -> result A * S.

Definition ret {S A} (a : A) : M S A := fun s => (Ok a, s).

Definition raise {S A} (e : exn) : M S A := fun s => (Raise e, s).

Definition bind {S A B} (c : M S A) (k : A -> M S B) : M S B :=
  fun s => match c s with
           | (Ok a, s') => k a s'
           | (Raise e, s') => (Raise e, s')
           end.

Notation "'let*' x := c 'in' k" := (bind c (fun x => k))
  (at level 10, x pattern, c at level 100, k at level 200, only parsing).

(** [try: body except Exception as e: handler(e)]. *)
Definition try_except {S A} (body : M S A) (handler : exn -> M S A) : M S A :=
  fun s => match body s with
           | (Ok a, s') => (Ok a, s')
           | (Raise e, s') => handler e s'
           end.

(** [for x in l: body(x)]. *)
Fixpoint for_each {S A} (l : list A) (body : A -> M S unit) : M S unit :=
  match l with
  | [] => ret tt
  | x :: l' => let* _ := body x in for_each l' body
  end.

(** [n] runs of [c] in a row, with their results in order. *)
Fixpoint trials {S A} (n : nat) (c : M S A) : M S (list A) :=
  match n with
  | O => ret []
  | S n' =>
      let* r := c in
      let* rs := trials n' c in
      ret (r :: rs)
  end.

(** Lifting a pure result. *)
Definition of_result {S A} (r : result A) : M S A := fun s => (r, s).

(** Running a computation on a component of the state. *)
Definition zoom {S T A} (get : S -> T) (set : T -> S -> S) (c : M T A) : M S A :=
  fun s => let '(r, t) := c (get s) in (r, set t s).

(** [d[k]] on a dict. *)
Definition getitem {V} (d : gmap string V) (k : string) : result V :=
  match d !! k with
  | Some v => Ok v
  | None => Raise (KeyError k)
  end.

Definition rbind {A B} (r : result A) (k : A -> result B) : result B :=
  match r with
  | Ok a => k a
  | Raise e => Raise e
  end.

Notation "'let?' x := c 'in' k" := (rbind c (fun x => k))
  (at level 10, x pattern, c at level 100, k at level 200, only parsing).

(** The fraction [n/d]. *)
Definition qc (n : Z) (d : positive) : Qc := Q2Qc (n # d).

(** ** ROC curve and its area ([sklearn.metrics], called at lines 102-103) *)

Module Roc.

(** Modelled from the spec: part of [roc_curve]. The scores as rationals;
    [None] when one of them is NaN. *)
Fixpoint finites (l : list num) : option (list Qc) :=
  match l with
  | [] => Some []
  | Finite q :: l' =>
      match finites l' with
      | Some r => Some (q :: r)
      | None => None
      end
  | NaN :: _ => None
  end.

(** Modelled from the spec: part of [roc_curve]. Insertion of a
    (score, is-positive) pair in a list ranked by decreasing score. *)
Fixpoint insert_desc (x : Qc * bool) (l : list (Qc * bool)) : list (Qc * bool) :=
  match l with
  | [] => [x]
  | y :: l' =>
      if Qle_bool (fst y) (fst x) then x :: l else y :: insert_desc x l'
  end.

(** Modelled from the spec: part of [roc_curve]. The samples from the
    highest score to the lowest. *)
Definition rank_desc (l : list (Qc * bool)) : list (Qc * bool) :=
  fold_right insert_desc [] l.

(** Modelled from the spec: part of [roc_curve]. The threshold sweep,
    highest score first: after the last sample of each distinct score
    value, the numbers of false and true positives among the samples scored
    at least that value. *)
Fixpoint sweep (l : list (Qc * bool)) (fps tps : nat) : list (nat * nat) :=
  match l with
  | [] => []
  | (s, pos) :: rest =>
      let fps' := if pos then fps else S fps in
      let tps' := if pos then S tps else tps in
      match rest with
      | [] => [(fps', tps')]
      | (s', _) :: _ =>
          if Qeq_bool s s' then sweep rest fps' tps'
          else (fps', tps') :: sweep rest fps' tps'
      end
  end.

(** Modelled from the spec: [sklearn.metrics.roc_curve] is not part of the
    source file. "The ROC curve over (labels, scores) with positive label
    fixed": the (false-positive-rate, true-positive-rate) sequence
    "produced by sweeping the score threshold from highest to lowest",
    starting at (0, 0). A rate whose class is absent is NaN. The third
    component of the library's answer (the thresholds) is dropped by the
    caller and left out. Inputs of different lengths, an empty input and
    a NaN score are rejected. *)
Definition roc_curve (y_true : list Z) (y_score : list num) (pos_label : Z)
  : result (list num * list num) :=
  if negb (List.length y_true =? List.length y_score)%nat
  then Raise (ValueError "inconsistent numbers of samples")
  else
    match finites y_score with
    | None => Raise (ValueError "Input contains NaN")
    | Some [] => Raise (ValueError "empty input")
    | Some scores =>
        let marked :=
          combine scores (map (fun y => bool_decide (y = pos_label)) y_true) in
        let counts := (0%nat, 0%nat) :: sweep (rank_desc marked) 0 0 in
        let '(fps_all, tps_all) := List.last counts (0%nat, 0%nat) in
        let fpr := map (fun c => (of_nat (fst c) / of_nat fps_all)%num) counts in
        let tpr := map (fun c => (of_nat (snd c) / of_nat tps_all)%num) counts in
        Ok (fpr, tpr)
    end.

(** Modelled from the spec: part of [auc]. The trapezoidal rule on the
    points (x_i, y_i). *)
Fixpoint trapz (x y : list num) : num :=
  match x, y with
  | x0 :: x', y0 :: y' =>
      match x', y' with
      | x1 :: _, y1 :: _ =>
          ((x1 - x0) * (y0 + y1) / of_Z 2 + trapz x' y')%num
      | _, _ => zero
      end
  | _, _ => zero
  end.

(** Modelled from the spec: [sklearn.metrics.auc] is not part of the
    source file. "The area under that curve via the standard trapezoidal
    rule on the (false-positive-rate, true-positive-rate) sequence". *)
Definition auc (fpr tpr : list num) : num := trapz fpr tpr.

(** Modelled from the spec: [roc_curve] with the positive label 1
    followed by [auc], the two calls of lines 102-103. *)
Definition roc_auc (y_true : list Z) (y_score : list num) : result num :=
  let? (fpr, tpr) := roc_curve y_true y_score 1 in
  Ok (auc fpr tpr).

End Roc.


(** ** The program *)

(** The classes of [kjl.model]. *)
Inductive pyclass : Type := KJL | NYSTROM | OCSVM | GMM.

(** *** Python values *)

Section Values.

(** Field values of a snapshot other than strings (scalars, arrays).
    The source only copies and passes them on. *)
Context {value : Type}.

(** A value stored in a parameter mapping or in an attribute. *)
Inductive pyval : Type :=
| PStr (s : string)
| PData (v : value).

(** An instance of one of the classes: its attributes by name. *)
Record pyobject : Type := {
  class_of : pyclass;
  attrs : gmap string pyval
}.

(** [o.name = v]. *)
Definition setattr (o : pyobject) (name : string) (v : pyval) : pyobject :=
  {| class_of := class_of o; attrs := <[name := v]> (attrs o) |}.

(** The record [res] of lines 365-367. *)
Record res_record : Type := {
  res_train_times : list num;
  res_test_times : list num;
  res_aucs : list num;
  res_params : list pyval;
  res_space_sizes : list num;
  res_model_spaces : list num;
  res_test_spaces : list num;
  res_X_train_shape : string;
  res_X_val_shape : string;
  res_X_test_shape : string
}.

End Values.

Arguments pyval : clear implicits.
Arguments pyobject : clear implicits.
Arguments res_record : clear implicits.

(** *** External code

    What the file imports and calls: the classes of [kjl.model], the
    profiler, [load_data], [dump_data], [os.path.getsize], pandas. Each
    operation acts on the outside world (files, the clock) and may raise.
    [ndarray] is the type of feature matrices. *)
Record Externals (value ndarray World : Type) : Type := {
  (** The attributes a constructor call ([KJL(None)], [NYSTROM(None)],
      [OCSVM()], [GMM()]) leaves on the new object; a constructor does
      nothing else. *)
  init_attrs : pyclass -> gmap string (pyval value);
  transform : pyobject value -> ndarray -> M World ndarray;
  decision_function : pyobject value -> ndarray -> M World (list num);
  (** [pr = cProfile.Profile(time.perf_counter); pr.enable()]. *)
  profile_enable : M World unit;
  (** [pr.disable(); ps = pstats.Stats(pr).sort_stats('line'); ps.total_tt]. *)
  profile_total_tt : M World num;
  (** [load_data] on a parameter file and on the test-set file. *)
  load_params : string -> M World (gmap string (pyval value));
  load_test_set : string -> M World (ndarray * list Z);
  (** [os.path.getsize]. *)
  getsize : string -> M World Z;
  (** [f'{X.shape}']. *)
  shape_str : ndarray -> string;
  (** [dump_data(res, out_file)]. *)
  dump_data : res_record value -> string -> M World unit;
  (** The body of [res2csv] (lines 258-276), which formats the record as
      one line and writes it with pandas. *)
  res2csv : string -> string -> res_record value -> string -> M World string
}.

Arguments init_attrs {value ndarray World}.
Arguments transform {value ndarray World}.
Arguments decision_function {value ndarray World}.
Arguments profile_enable {value ndarray World}.
Arguments profile_total_tt {value ndarray World}.
Arguments load_params {value ndarray World}.
Arguments load_test_set {value ndarray World}.
Arguments getsize {value ndarray World}.
Arguments shape_str {value ndarray World}.
Arguments dump_data {value ndarray World}.
Arguments res2csv {value ndarray World}.

(** *** Log

    One constructor for each message of the file, with the values the
    message is formatted from; the standard deviations of lines 362 and
    364 are left out. *)

Inductive log_entry : Type :=
| InfoTestTime (test_time std_test_time seek_test_time proj_test_time
                model_test_time : num)                      (* line 105 *)
| InfoStart (dataset_name model_name feat_set in_dir : string) (* 319 *)
| InfoRepeat (i : nat)                                      (* line 337 *)
| PrintExc (e : exn)                                        (* line 359 *)
| LogError (dataset_name model_name : string)               (* line 360 *)
| DebugModelSpaces (mean total : num) (model_spaces : list num) (* 362 *)
| DebugAuc (mean : num)                                     (* line 364 *)
| InfoOutFile (out_file : string).                          (* line 378 *)

Definition is_test_time_line (e : log_entry) : Prop :=
  match e with InfoTestTime _ _ _ _ _ => True | _ => False end.

(** The indices announced by "i_th repeat" lines, in order. *)
Definition repeats_logged (l : list log_entry) : list nat :=
  omap (fun e => match e with InfoRepeat i => Some i | _ => None end) l.

(** The exceptions whose traceback was printed, in order. *)
Definition tracebacks (l : list log_entry) : list exn :=
  omap (fun e => match e with PrintExc x => Some x | _ => None end) l.

(** The "Error:" lines, in order. *)
Definition error_lines (l : list log_entry) : list (string * string) :=
  omap (fun e => match e with LogError d m => Some (d, m) | _ => None end) l.

(** The "Total test time" lines, one for each completed call of [_test]. *)
Definition test_time_lines (l : list log_entry) : list log_entry :=
  List.filter
    (fun e => match e with InfoTestTime _ _ _ _ _ => true | _ => false end) l.

Section Program.

Context {value ndarray World : Type}.
Variable E : Externals value ndarray World.

Local Abbreviation pyval := (pyval value).
Local Abbreviation pyobject := (pyobject value).
Local Abbreviation res_record := (res_record value).

Definition new (c : pyclass) : pyobject :=
  {| class_of := c; attrs := init_attrs E c |}.

(** The environment of a run: the outside world and what was logged. *)
Record Env : Type := {
  world : World;
  log : list log_entry
}.

Definition emit (e : log_entry) : M Env unit :=
  fun s => (Ok tt, {| world := world s; log := log s ++ [e] |}).

Definition ext {A} (c : M World A) : M Env A :=
  zoom world (fun w s => {| world := w; log := log s |}) c.

(** [copy.deepcopy]. Objects are embedded as values, which a callee
    cannot alter for its caller; the copy of a value is the value. *)
Definition deepcopy {A} (x : A) : A := x.

(** *** _test (lines 31-109) *)

(** [k in params.keys() and params[k]]. *)
Definition flag_set (params : gmap string bool) (k : string) : bool :=
  match params !! k with
  | Some b => b
  | None => false
  end.

(** [project.transform(X)], where [project] may be [None]. *)
Definition project_transform (project : option pyobject) (X : ndarray)
  : M World ndarray :=
  match project with
  | Some p => transform E p X
  | None => raise (AttributeError "'NoneType' object has no attribute 'transform'")
  end.

(** The block enclosed by the profiler run of lines 69-77 (lines 71-76). *)
Definition projection_block (params : gmap string bool)
    (project : option pyobject) (X_test : ndarray) : M World ndarray :=
  if flag_set params "is_kjl" then project_transform project X_test
  else if flag_set params "is_nystrom" then project_transform project X_test
  else ret X_test.

Definition _test (model : pyobject) (X_test : ndarray) (y_test : list Z)
    (params : gmap string bool) (project : option pyobject)
  : M Env (num * num) :=
  let test_time := zero in
  (* 1. standardization *)
  let std_test_time := zero in
  let test_time := (test_time + std_test_time)%num in
  (* 2. projection *)
  let* _ := ext (profile_enable E) in
  let* X_test := ext (projection_block params project X_test) in
  let* proj_test_time := ext (profile_total_tt E) in
  let test_time := (test_time + proj_test_time)%num in
  let seek_test_time := zero in
  (* 3. prediction *)
  let* _ := ext (profile_enable E) in
  let* y_score := ext (decision_function E model X_test) in
  let* model_test_time := ext (profile_total_tt E) in
  let test_time := (test_time + model_test_time)%num in
  let* (fpr, tpr) := of_result (Roc.roc_curve y_test y_score 1) in
  let auc := Roc.auc fpr tpr in
  let* _ := emit (InfoTestTime test_time std_test_time seek_test_time
                               proj_test_time model_test_time) in
  ret (auc, test_time).

(** *** evaluate_model (lines 112-188) *)

(** [model_params['model_name']], which the [in] tests search: a [str].
    A value that is not one is rejected. *)
Definition as_str (v : pyval) : result string :=
  match v with
  | PStr s => Ok s
  | PData _ => Raise (TypeError "model_name is not a str")
  end.

(** 1. recreate project object from saved parameters (lines 135-149). *)
Definition recreate_project (model_name : string)
    (project_params : gmap string pyval)
  : result (option pyobject * gmap string bool) :=
  let params : gmap string bool :=
    <["is_kjl" := false]> (<["is_nystrom" := false]> ∅) in
  if str_in "KJL" model_name then
    let project := new KJL in
    let? v := getitem project_params "sigma" in
    let project := setattr project "sigma" v in
    let? v := getitem project_params "Xrow" in
    let project := setattr project "Xrow" v in
    let? v := getitem project_params "U" in
    let project := setattr project "U" v in
    let params := <["is_kjl" := true]> params in
    Ok (Some project, params)
  else if str_in "Nystrom" model_name then
    let project := new NYSTROM in
    let? v := getitem project_params "sigma" in
    let project := setattr project "sigma" v in
    let? v := getitem project_params "Xrow" in
    let project := setattr project "Xrow" v in
    let? v := getitem project_params "eigvec_lambda" in
    let project := setattr project "eigvec_lambda" v in
    let params := <["is_nystrom" := true]> params in
    Ok (Some project, params)
  else
    Ok (None, params).

(** 2. recreate a new model from saved parameters (lines 153-168). *)
Definition recreate_model (model_name : string)
    (model_params : gmap string pyval) : result pyobject :=
  if str_in "OCSVM" model_name then
    let model := new OCSVM in
    let? v := getitem model_params "kernel" in
    let model := setattr model "kernel" v in
    let? v := getitem model_params "_gamma" in
    let model := setattr model "gamma" v in
    let? v := getitem model_params "support_vectors_" in
    let model := setattr model "support_vectors_" v in
    let? v := getitem model_params "_dual_coef_" in
    let model := setattr model "dual_coef_" v in
    let? v := getitem model_params "_intercept_" in
    let model := setattr model "intercept_" v in
    Ok model
  else if str_in "GMM" model_name then
    let model := new GMM in
    let? v := getitem model_params "covariance_type" in
    let model := setattr model "covariance_type" v in
    let? v := getitem model_params "weights_" in
    let model := setattr model "weights_" v in
    let? v := getitem model_params "means_" in
    let model := setattr model "means_" v in
    let? v := getitem model_params "precisions_cholesky_" in
    let model := setattr model "precisions_cholesky_" v in
    Ok model
  else
    Raise NotImplementedError.

(** Lines 131-168: the tag, then the projection, then the detector. *)
Definition recreate (model_params project_params : gmap string pyval)
  : result (string * option pyobject * gmap string bool * pyobject) :=
  let? v := getitem model_params "model_name" in
  let? model_name := as_str v in
  let? (project, params) := recreate_project model_name project_params in
  let? model := recreate_model model_name model_params in
  Ok (model_name, project, params, model).

(** The attributes assigned on each path, with the key each one is read
    from (lines 138-140, 144-146, 155-159, 162-166). *)
Definition KJL_fields : list (string * string) :=
  [("sigma", "sigma"); ("Xrow", "Xrow"); ("U", "U")].
Definition NYSTROM_fields : list (string * string) :=
  [("sigma", "sigma"); ("Xrow", "Xrow"); ("eigvec_lambda", "eigvec_lambda")].
Definition OCSVM_fields : list (string * string) :=
  [("kernel", "kernel"); ("gamma", "_gamma");
   ("support_vectors_", "support_vectors_"); ("dual_coef_", "_dual_coef_");
   ("intercept_", "_intercept_")].
Definition GMM_fields : list (string * string) :=
  [("covariance_type", "covariance_type"); ("weights_", "weights_");
   ("means_", "means_"); ("precisions_cholesky_", "precisions_cholesky_")].

Definition fields_of (c : pyclass) : list (string * string) :=
  match c with
  | KJL => KJL_fields
  | NYSTROM => NYSTROM_fields
  | OCSVM => OCSVM_fields
  | GMM => GMM_fields
  end.

(** The class the tag selects for the projection and for the detector:
    the first branch of each [if]/[elif] chain whose substring occurs. *)
Definition projection_class (model_name : string) : option pyclass :=
  if str_in "KJL" model_name then Some KJL
  else if str_in "Nystrom" model_name then Some NYSTROM
  else None.

Definition detector_class (model_name : string) : option pyclass :=
  if str_in "OCSVM" model_name then Some OCSVM
  else if str_in "GMM" model_name then Some GMM
  else None.

(** The keys a class needs in its mapping; none without a class. *)
Definition required_keys (c : option pyclass) : list string :=
  match c with
  | Some c => (fields_of c).*2
  | None => []
  end.

(** [o] is a fresh instance of [c] whose listed attributes hold the
    values the mapping [d] has under the paired keys, every other
    attribute being as the constructor left it. *)
Definition rebuilt_from (o : pyobject) (c : pyclass) (d : gmap string pyval)
  : Prop :=
  class_of o = c /\
  (forall a k, (a, k) ∈ fields_of c ->
     is_Some (d !! k) /\ attrs o !! a = d !! k) /\
  (forall a, a ∉ (fields_of c).*1 -> attrs o !! a = init_attrs E c !! a).

(** The stage flags [params] ends with, given the projection class. *)
Definition flags_of (c : option pyclass) (params : gmap string bool) : Prop :=
  params !! "is_kjl"
    = Some (match c with Some KJL => true | _ => false end) /\
  params !! "is_nystrom"
    = Some (match c with Some NYSTROM => true | _ => false end).

(** [for i in range(nums)] of lines 176-181, on the two running lists. *)
Fixpoint trial_loop (n : nat) (trial : M Env (num * num))
    (auc test_time : list num) : M Env (list num * list num) :=
  match n with
  | O => ret (auc, test_time)
  | S n' =>
      let* (auc_, test_time_) := trial in
      trial_loop n' trial (auc ++ [auc_]) (test_time ++ [test_time_])
  end.

(** The default of [nums] (and of [nums_average] in [main]);
    [is_average] defaults to [True]. *)
Definition default_nums : nat := 20.

Definition evaluate_model (model_params project_params : gmap string pyval)
    (X_test : ndarray) (y_test : list Z) (nums : nat) (is_average : bool)
  : M Env (num * num) :=
  let* (_, project, params, model) :=
    of_result (recreate model_params project_params) in
  (* 3. Evaluate the model *)
  let trial :=
    _test (deepcopy model) (deepcopy X_test) (deepcopy y_test)
          (deepcopy params) (deepcopy project) in
  if is_average then
    let* (auc, test_time) := trial_loop nums trial [] [] in
    ret (mean auc, mean test_time)
  else
    trial.

(** *** get_model_space, get_test_set_space (lines 213-241) *)

Definition get_model_space (model_params_file project_params_file unit : string)
  : M World num :=
  let* a := getsize E model_params_file in
  let* b := getsize E project_params_file in
  let space := of_Z (a + b) in
  ret (format_unit space unit).

Definition get_test_set_space (test_set_file unit : string) : M World num :=
  let* space := getsize E test_set_file in
  ret (format_unit (of_Z space) unit).

(** *** main (lines 279-380) *)

(** The locals of [main] that the loop updates. *)
Record main_vars : Type := {
  aucs : list num;
  test_times : list num;
  model_spaces : list num;
  test_spaces : list num;
  X_test_shape : string
}.

Record MainState : Type := {
  env : Env;
  vars : main_vars
}.

(** The four running lists and the log of a state. *)
Definition lists_and_log (s : MainState)
  : list num * list num * list num * list num * list log_entry :=
  (aucs (vars s), test_times (vars s), model_spaces (vars s),
   test_spaces (vars s), log (env s)).

Definition in_env {A} (c : M Env A) : M MainState A :=
  zoom env (fun e s => {| env := e; vars := vars s |}) c.

Definition update (f : main_vars -> main_vars) : M MainState unit :=
  fun s => (Ok tt, {| env := env s; vars := f (vars s) |}).

Definition aucs_append (x : num) : M MainState unit :=
  update (fun v => {| aucs := aucs v ++ [x]; test_times := test_times v;
                      model_spaces := model_spaces v;
                      test_spaces := test_spaces v;
                      X_test_shape := X_test_shape v |}).

Definition test_times_append (x : num) : M MainState unit :=
  update (fun v => {| aucs := aucs v; test_times := test_times v ++ [x];
                      model_spaces := model_spaces v;
                      test_spaces := test_spaces v;
                      X_test_shape := X_test_shape v |}).

Definition model_spaces_append (x : num) : M MainState unit :=
  update (fun v => {| aucs := aucs v; test_times := test_times v;
                      model_spaces := model_spaces v ++ [x];
                      test_spaces := test_spaces v;
                      X_test_shape := X_test_shape v |}).

Definition test_spaces_append (x : num) : M MainState unit :=
  update (fun v => {| aucs := aucs v; test_times := test_times v;
                      model_spaces := model_spaces v;
                      test_spaces := test_spaces v ++ [x];
                      X_test_shape := X_test_shape v |}).

Definition set_X_test_shape (x : string) : M MainState unit :=
  update (fun v => {| aucs := aucs v; test_times := test_times v;
                      model_spaces := model_spaces v;
                      test_spaces := test_spaces v;
                      X_test_shape := x |}).

(** Lines 300-318. *)
Definition sub_dir (dataset_name model_name feat_set : string) (is_gs : bool)
  : string :=
  let GMM_covariance_type :=
    if str_in "OCSVM" model_name then "None"
    else if str_in "diag" model_name then "diag"
    else "full" in
  pth_join "src_dst"
    [feat_set +:+ "-header_False";
     dataset_name;
     "before_proj_False" +:+ "-gs_" +:+ str_of_bool is_gs;
     model_name +:+ "-std_False" +:+ "_center_False" +:+ "-d_5"
       +:+ "-" +:+ GMM_covariance_type].

Definition n_repeats : nat := 5.

Section Repeat.

Variables (dataset_name model_name in_dir unit_ : string).
Variable nums_average : nat.

(** 2.1 load the model and project parameters from file
    (lines 340-345). *)
Definition load_stage (i : nat)
  : M MainState (gmap string pyval * gmap string pyval) :=
  let model_params_file :=
    pth_join in_dir ["repeat_" +:+ str_of_nat i +:+ ".model.model_params"] in
  let* model_params := in_env (ext (load_params E model_params_file)) in
  let model_params := <["model_name" := PStr model_name]> model_params in
  let project_params_file :=
    pth_join in_dir ["repeat_" +:+ str_of_nat i +:+ ".model.project_params"] in
  let* project_params := in_env (ext (load_params E project_params_file)) in
  let* space :=
    in_env (ext (get_model_space model_params_file project_params_file unit_)) in
  let* _ := model_spaces_append space in
  ret (model_params, project_params).

(** 2.2 load the test set from file (lines 348-351). *)
Definition test_set_stage : M MainState (ndarray * list Z) :=
  let test_set_file := pth_join in_dir ["Test_set-repeat_0.dat"] in
  let* (X_test, y_test) := in_env (ext (load_test_set E test_set_file)) in
  let* _ := set_X_test_shape (shape_str E X_test) in
  let* space := in_env (ext (get_test_set_space test_set_file unit_)) in
  let* _ := test_spaces_append space in
  ret (X_test, y_test).

(** 2.3 evaluate the model on the test set (lines 354-357). *)
Definition evaluate_stage (model_params project_params : gmap string pyval)
    (X_test : ndarray) (y_test : list Z) : M MainState unit :=
  let* (auc, test_time) :=
    in_env (evaluate_model model_params project_params X_test y_test
                           nums_average true) in
  let* _ := aucs_append auc in
  test_times_append test_time.

(** The body of the [try] (lines 340-357). *)
Definition repeat_body (i : nat) : M MainState unit :=
  let* (model_params, project_params) := load_stage i in
  let* (X_test, y_test) := test_set_stage in
  evaluate_stage model_params project_params X_test y_test.

(** The [except Exception as e] clause (lines 358-360). *)
Definition repeat_handler (e : exn) : M MainState unit :=
  let* _ := in_env (emit (PrintExc e)) in
  in_env (emit (LogError dataset_name model_name)).

(** One iteration of the loop of line 336. *)
Definition repeat_step (i : nat) : M MainState unit :=
  let* _ := in_env (emit (InfoRepeat i)) in
  try_except (repeat_body i) repeat_handler.

Definition repeat_loop : M MainState unit :=
  for_each (seq 0 n_repeats) repeat_step.

(** How many of the stages 2.1, 2.2, 2.3 the body of repeat [i] completes
    when started in [s]. *)
Definition stages_done (i : nat) (s : MainState) : nat :=
  match load_stage i s with
  | (Raise _, _) => 0
  | (Ok (model_params, project_params), s1) =>
      match test_set_stage s1 with
      | (Raise _, _) => 1
      | (Ok (X_test, y_test), s2) =>
          match evaluate_stage model_params project_params X_test y_test s2 with
          | (Raise _, _) => 2
          | (Ok _, _) => 3
          end
      end
  end.

(** The state in which the body of repeat [i] starts. *)
Definition body_start (i : nat) (s : MainState) : MainState :=
  snd (in_env (emit (InfoRepeat i)) s).

(** The stages completed by each repeat of the loop over [l] from [s]. *)
Fixpoint progress (l : list nat) (s : MainState) : list nat :=
  match l with
  | [] => []
  | i :: l' =>
      stages_done i (body_start i s) :: progress l' (snd (repeat_step i s))
  end.

End Repeat.

Definition initial_vars : main_vars :=
  {| aucs := []; test_times := []; model_spaces := []; test_spaces := [];
     X_test_shape := "" |}.

(** The repeats that raised: those that completed fewer than three
    stages. *)
Definition failures (p : list nat) : nat :=
  List.length (List.filter (fun n => Nat.ltb n 3) p).

(** How many repeats completed at least [k] stages; a repeat completed
    successfully when it completed all three. *)
Definition reached (k : nat) (p : list nat) : nat :=
  List.length (List.filter (fun n => Nat.leb k n) p).

Definition get_vars : M MainState main_vars := fun s => (Ok (vars s), s).

(** [main] up to the construction of [res] (lines 297-367). *)
Definition main_res (dataset_name model_name feat_set : string) (is_gs : bool)
    (nums_average : nat) : M MainState res_record :=
  (* 1. Initialization parameters *)
  let in_dir := "speedup/data/models" in
  let sub := sub_dir dataset_name model_name feat_set is_gs in
  let in_dir := pth_join in_dir [sub] in
  let* _ := in_env (emit (InfoStart dataset_name model_name feat_set in_dir)) in
  let* _ := update (fun _ => initial_vars) in
  let unit_ := "KB" in
  (* 2. Recreate a new model and evaluate it on the test set *)
  let* _ := repeat_loop dataset_name model_name in_dir unit_ nums_average in
  let* v := get_vars in
  let* _ := in_env (emit (DebugModelSpaces (mean (model_spaces v))
                                           (sum (model_spaces v))
                                           (model_spaces v))) in
  let* _ := in_env (emit (DebugAuc (mean (aucs v)))) in
  ret {| res_train_times := []; res_test_times := test_times v;
         res_aucs := aucs v; res_params := [];
         res_space_sizes := []; res_model_spaces := model_spaces v;
         res_test_spaces := test_spaces v;
         res_X_train_shape := ""; res_X_val_shape := "";
         res_X_test_shape := X_test_shape v |}.

(** The stages completed by the five repeats of a run of [main]. *)
Definition main_progress (dataset_name model_name feat_set : string)
    (is_gs : bool) (nums_average : nat) (s : MainState) : list nat :=
  let in_dir :=
    pth_join "speedup/data/models"
             [sub_dir dataset_name model_name feat_set is_gs] in
  let s0 :=
    snd ((let* _ := in_env (emit (InfoStart dataset_name model_name feat_set
                                            in_dir)) in
          update (fun _ => initial_vars)) s) in
  progress dataset_name model_name in_dir "KB" nums_average
           (seq 0 n_repeats) s0.

Definition main (dataset_name model_name feat_set : string) (is_gs : bool)
    (nums_average : nat) : M MainState string :=
  let* res := main_res dataset_name model_name feat_set is_gs nums_average in
  let out_dir := "speedup/out/models_res" in
  let out_dir :=
    pth_join out_dir [sub_dir dataset_name model_name feat_set is_gs] in
  (* 3.1 Save the result to the disk *)
  let out_file :=
    out_dir +:+ "/" +:+ dataset_name +:+ "-" +:+ model_name +:+ ".dat" in
  let* _ := in_env (ext (dump_data E res out_file)) in
  (* 3.2 save to csv *)
  let* _ := in_env (ext (res2csv E dataset_name model_name res out_file)) in
  let* _ := in_env (emit (InfoOutFile out_file)) in
  ret out_file.

End Program.

(** ** Names of the files and directories of main *)

(** Lines 302-307. *)
Definition GMM_covariance_type (model_name : string) : string :=
  if str_in "OCSVM" model_name then "None"
  else if str_in "diag" model_name then "diag"
  else "full".

(** The last component of [sub_dir] (lines 314-316). *)
Definition model_dir (model_name : string) : string :=
  model_name +:+ "-std_False" +:+ "_center_False" +:+ "-d_5"
    +:+ "-" +:+ GMM_covariance_type model_name.

(** [in_dir] and [out_dir] after lines 317-318. *)
Definition in_dir_of (dataset_name model_name feat_set : string)
    (is_gs : bool) : string :=
  pth_join "speedup/data/models"
           [sub_dir dataset_name model_name feat_set is_gs].

Definition out_dir_of (dataset_name model_name feat_set : string)
    (is_gs : bool) : string :=
  pth_join "speedup/out/models_res"
           [sub_dir dataset_name model_name feat_set is_gs].

(** [out_file] of line 371. *)
Definition out_file_of (dataset_name model_name feat_set : string)
    (is_gs : bool) : string :=
  out_dir_of dataset_name model_name feat_set is_gs
    +:+ "/" +:+ dataset_name +:+ "-" +:+ model_name +:+ ".dat".

(** The files of repeat [i] (lines 340, 343) and the test-set file
    (line 348). *)
Definition model_params_file (in_dir : string) (i : nat) : string :=
  pth_join in_dir ["repeat_" +:+ str_of_nat i +:+ ".model.model_params"].

Definition project_params_file (in_dir : string) (i : nat) : string :=
  pth_join in_dir ["repeat_" +:+ str_of_nat i +:+ ".model.project_params"].

Definition test_set_file (in_dir : string) : string :=
  pth_join in_dir ["Test_set-repeat_0.dat"].

(** A footprint in KB: a byte count over 1e3. *)
Definition is_KB (x : num) : Prop := exists z : Z, x = (of_Z z / _1e3)%num.

(** [sub] occurs in [s]: [s] is [a + sub + b]. *)
Definition occurs_in (sub s : string) : Prop :=
  exists a b, s = a +:+ sub +:+ b.

(** A footprint in the unit [unit]: [format_unit] of a byte count. *)
Definition is_footprint (unit : string) (x : num) : Prop :=
  exists z : Z, x = format_unit (of_Z z) unit.

(** What [os.path.join(a, b)] puts in front of a component [b] that does
    not start with a slash. *)
Definition dir_prefix (a : string) : string :=
  if decide (a = "") then ""
  else if ends_with_slash a then a
  else a +:+ "/".

(** The footprints gathered so far are all in the unit [unit]. *)
Definition footprints_in {World : Type} (unit : string)
    (s : @MainState World) : Prop :=
  Forall (is_footprint unit) (model_spaces (vars s)) /\
  Forall (is_footprint unit) (test_spaces (vars s)).

(** ** np.mean on float64 (called at lines 182-183)

    [Num.mean] is the mean before rounding. numpy computes it on an array
    of float64: every addition and the final division are rounded to the
    nearest binary64 value. A binary64 value is kept as the rational it
    denotes. *)

Module Binary64.

(** [floor (log2 (n/d))]: with [k] the difference of the bit lengths,
    [n/d] lies strictly between [2^(k-1)] and [2^(k+1)]. *)
Definition floor_log2 (n d : positive) : Z :=
  let k := (Z.log2 (Z.pos n) - Z.log2 (Z.pos d))%Z in
  if (Z.pos n * 2 ^ Z.max 0 (- k) <? Z.pos d * 2 ^ Z.max 0 k)%Z
  then (k - 1)%Z else k.

(** The integer nearest to [n/d], for [0 <= n] and [0 < d]; halfway
    between two integers, the even one. *)
Definition nearest_even (n d : Z) : Z :=
  let q := (n / d)%Z in
  match (2 * (n mod d) ?= d)%Z with
  | Lt => q
  | Gt => (q + 1)%Z
  | Eq => if Z.even q then q else (q + 1)%Z
  end.

(** Round to nearest, ties to even, on 53 significant bits: [n/d]
    becomes [m * 2^e] with [2^52 <= m <= 2^53]. *)
Definition round_pos (n d : positive) : Q :=
  let e := (floor_log2 n d - 52)%Z in
  let m := nearest_even (Z.pos n * 2 ^ Z.max 0 (- e))
                        (Z.pos d * 2 ^ Z.max 0 e) in
  (inject_Z m * Qpower 2 e)%Q.

(** The binary64 value nearest to [q]. The exponent is not bounded:
    overflow to infinity and gradual underflow, which take magnitudes
    above 1.7e308 or below 2.3e-308, are outside the model. *)
Definition round (q : Qc) : Qc :=
  match Qnum q with
  | Z0 => q
  | Z.pos n => Q2Qc (round_pos n (Qden q))
  | Z.neg n => Q2Qc (- round_pos n (Qden q))
  end.

Definition rounded (x : num) : num :=
  match x with
  | Finite q => Finite (round q)
  | NaN => NaN
  end.


(** [+] and [/] of float64. *)
Definition add (x y : num) : num := rounded (Num.add x y).
Definition div (x y : num) : num := rounded (Num.div x y).

(** The loop [for (i = 8; i < n - (n % 8); i += 8) r[j] += a[i + j]] of
    numpy's pairwise sum, [blocks] times over the entries left in [a]. *)
Fixpoint accumulate (blocks : nat) (r a : list num) : list num :=
  match blocks with
  | O => r
  | S blocks' =>
      accumulate blocks' (zip_with add r (firstn 8 a)) (skipn 8 a)
  end.

(** [((r[0] + r[1]) + (r[2] + r[3])) + ((r[4] + r[5]) + (r[6] + r[7]))]. *)
Definition combine8 (r : list num) : num :=
  match r with
  | [r0; r1; r2; r3; r4; r5; r6; r7] =>
      add (add (add r0 r1) (add r2 r3)) (add (add r4 r5) (add r6 r7))
  | _ => NaN
  end.

(** Modelled from the spec: numpy's sum of a contiguous float64 array,
    not in src. Fewer than 8 entries are added left to right from 0; up to
    128 entries are added into 8 running sums, the 8 sums are combined and
    the entries after the last full block of 8 are added one by one; a
    longer array is cut in two at half its length, rounded down to a
    multiple of 8, and the sums of the two parts are added. [fuel] bounds
    the depth of the cuts. *)
Fixpoint pairwise_sum_upto (fuel : nat) (a : list num) : num :=
  let n := List.length a in
  if (n <? 8)%nat then fold_left add a zero
  else if (n <=? 128)%nat then
    let full := (n - n mod 8)%nat in
    let r := accumulate (full / 8 - 1) (firstn 8 a) (skipn 8 a) in
    fold_left add (skipn full a) (combine8 r)
  else
    match fuel with
    | O => NaN
    | S fuel' =>
        let n2 := (n / 2)%nat in
        let n2 := (n2 - n2 mod 8)%nat in
        add (pairwise_sum_upto fuel' (firstn n2 a))
            (pairwise_sum_upto fuel' (skipn n2 a))
    end.

Definition pairwise_sum (a : list num) : num :=
  pairwise_sum_upto (List.length a) a.

(** Modelled from the spec: [np.mean] is numpy's, not in src. "The
    arithmetic mean" as numpy computes it on float64: the sum of the
    array, started from 0, over the number of entries; NaN when there is
    none. *)
Definition mean (l : list num) : num :=
  div (add zero (pairwise_sum l)) (of_nat (List.length l)).

End Binary64.

(** ** A small concrete world

    Snapshot values are integers, a feature matrix is a column of numbers,
    and the world is a clock: loading a file takes one tick, a projection
    five, scoring two, and stopping the profiler one. The profiler reports
    the ticks since it was enabled. *)

Module Demo.

Definition value : Type := Z.
Definition ndarray : Type := list num.

Record World : Type := {
  clock : Z;
  started : Z
}.

Definition tick (n : Z) : M World unit :=
  fun w => (Ok tt, {| clock := clock w + n; started := started w |}).

Definition detector_params : gmap string (pyval value) :=
  <["kernel" := PStr "rbf"]>
  (<["_gamma" := PData 2%Z]>
  (<["support_vectors_" := PData 7%Z]>
  (<["_dual_coef_" := PData 3%Z]>
  (<["_intercept_" := PData (-1)%Z]>
  (<["covariance_type" := PStr "full"]>
  (<["weights_" := PData 4%Z]>
  (<["means_" := PData 5%Z]>
  (<["precisions_cholesky_" := PData 6%Z]> ∅)))))))).

Definition projection_params : gmap string (pyval value) :=
  <["sigma" := PData 11%Z]>
  (<["Xrow" := PData 12%Z]>
  (<["U" := PData 13%Z]>
  (<["eigvec_lambda" := PData 14%Z]> ∅))).

Definition X_demo : ndarray :=
  [Finite (qc 1 10); Finite (qc 2 10); Finite (qc (-1) 10); Finite (qc (-2) 10)].
Definition y_demo : list Z := [0; 0; 1; 1]%Z.

(** The files of repeat 2 are damaged when [damaged] is set: the detector
    mapping lacks its support vectors. *)
Definition externals (damaged : bool) : Externals value ndarray World := {|
  init_attrs c :=
    match c with
    | OCSVM => <["kernel" := PStr "linear"]> (<["nu" := PData 0%Z]> ∅)
    | _ => <["params" := PStr "None"]> ∅
    end;
  transform _ X := let* _ := tick 5 in ret X;
  decision_function _ X := let* _ := tick 2 in ret X;
  profile_enable := fun w => (Ok tt, {| clock := clock w; started := clock w |});
  profile_total_tt :=
    let* _ := tick 1 in
    fun w => (Ok (of_Z (clock w - started w)), w);
  load_params path :=
    let* _ := tick 1 in
    if str_in "project_params" path then ret projection_params
    else if damaged && str_in "repeat_2" path
         then ret (delete "support_vectors_" detector_params)
         else ret detector_params;
  load_test_set _ := let* _ := tick 1 in ret (X_demo, y_demo);
  getsize path :=
    if str_in "project_params" path then ret 2500%Z
    else if str_in "model_params" path then ret 1500%Z
    else ret 800%Z;
  shape_str X := "(" +:+ str_of_nat (List.length X) +:+ ", 1)";
  dump_data _ _ := tick 1;
  res2csv _ _ _ out_file := let* _ := tick 1 in ret out_file
|}.

(** The externals with every file intact, and with repeat 2 damaged. *)
Definition E0 : Externals value ndarray World := externals false.
Definition E2 : Externals value ndarray World := externals true.

(** The flags of a model without projection. *)
Definition no_projection : gmap string bool :=
  <["is_kjl" := false]> (<["is_nystrom" := false]> ∅).

Definition w0 : World := {| clock := 0; started := 0 |}.
Definition e0 : Env := {| world := w0; log := [] |}.
Definition s0 : MainState := {| env := e0; vars := initial_vars |}.

End Demo.
(** ** Worlds that fail

    The small world again, with a detector that stops answering once the
    clock has reached [limit] and, when [full] is set, a disk that refuses
    the result file. *)

Module DemoFailures.

Import Demo.

Definition failing_externals (limit : Z) (full : bool)
  : Externals value ndarray World := {|
  init_attrs := init_attrs E0;
  transform := transform E0;
  decision_function o X :=
    fun w =>
      if (clock w <? limit)%Z then decision_function E0 o X w
      else (Raise (ValueError "Input contains NaN"), w);
  profile_enable := profile_enable E0;
  profile_total_tt := profile_total_tt E0;
  load_params := load_params E0;
  load_test_set := load_test_set E0;
  getsize := getsize E0;
  shape_str := shape_str E0;
  dump_data res out_file :=
    if full then fun w => (Raise (OtherException "OSError"), w)
    else dump_data E0 res out_file;
  res2csv := res2csv E0
|}.

(** The detector answers twice: a run of [_test] takes four ticks and
    calls the detector after the first of them. *)
Definition E_tired : Externals value ndarray World := failing_externals 8 false.

(** The detector always answers and the disk is full. *)
Definition E_full : Externals value ndarray World := failing_externals 1000000 true.

(** The detector mapping under the tag [tag]. *)
Definition tagged (tag : string) : gmap string (pyval value) :=
  <["model_name" := PStr tag]> detector_params.

End DemoFailures.

(** Closed equations between numbers: compare the underlying fractions. *)
Lemma Finite_ext (a b : Qc) : Qeq_bool a b = true -> Finite a = Finite b.
Proof.
  intros H. f_equal. apply Qc_is_canon. apply Qeq_bool_iff. exact H.
Qed.

Ltac num_compute :=
  vm_compute;
  repeat (first [ reflexivity
                | apply Finite_ext; reflexivity
                | f_equal ]).

Example roc_auc_perfect :
  Roc.roc_auc [0; 0; 1; 1]%Z
    [Finite (qc 1 10); Finite (qc 2 10); Finite (qc 7 10); Finite (qc 9 10)]
  = Ok (of_Z 1).
Proof. num_compute. Qed.

Example roc_auc_half :
  Roc.roc_auc [0; 1; 0; 1]%Z
    [Finite (qc 1 10); Finite (qc 2 10); Finite (qc 7 10); Finite (qc 9 10)]
  = Ok (Finite (qc 3 4)).
Proof. num_compute. Qed.

Example roc_auc_one_class :
  Roc.roc_auc [0; 0]%Z [Finite (qc 1 10); Finite (qc 2 10)] = Ok NaN.
Proof. vm_compute. reflexivity. Qed.

Example format_unit_2500_KB :
  format_unit (of_Z 2500) "KB" = Finite (Q2Qc (5 # 2)).
Proof. vm_compute. f_equal. apply Qc_is_canon. reflexivity. Qed.

Example str_in_KJL : str_in "KJL" "KJL-OCSVM(linear)" = true.
Proof. reflexivity. Qed.

Example str_in_case : str_in "KJL" "kjl-ocsvm" = false.
Proof. reflexivity. Qed.

Example pth_join_3 : pth_join "a" ["b"; "c/"; "d"] = "a/b/c/d".
Proof. reflexivity. Qed.

Example str_of_nat_4 : str_of_nat 4 = "4".
Proof. reflexivity. Qed.

(** ** Arithmetic of [num] *)

Lemma of_Z_0 : zero = Finite 0%Qc.
Proof. reflexivity. Qed.

Lemma add_zero_l (x : num) : (zero + x)%num = x.
Proof.
  destruct x as [q|]; [|reflexivity].
  rewrite of_Z_0. simpl. f_equal. apply Qcplus_0_l.
Qed.

Lemma add_zero_r (x : num) : (x + zero)%num = x.
Proof.
  destruct x as [q|]; [|reflexivity].
  rewrite of_Z_0. simpl. f_equal. apply Qcplus_0_r.
Qed.

Lemma Q2Qc_inject_Z_neq_0 (z : Z) : z <> 0%Z -> Q2Qc (inject_Z z) <> Q2Qc 0.
Proof.
  intros Hz H. apply Q2Qc_eq_iff in H.
  unfold Qeq, inject_Z in H. simpl in H. lia.
Qed.

Lemma div_finite (q : Qc) (z : Z) :
  z <> 0%Z -> (Finite q / of_Z z)%num = Finite (q / Q2Qc (inject_Z z))%Qc.
Proof.
  intros Hz. unfold of_Z. simpl.
  destruct (decide (Q2Qc (inject_Z z) = Q2Qc 0)) as [H|H]; [|reflexivity].
  exfalso. exact (Q2Qc_inject_Z_neq_0 z Hz H).
Qed.

Lemma of_nat_S (n : nat) :
  Q2Qc (inject_Z (Z.of_nat (S n))) = (Q2Qc (inject_Z (Z.of_nat n)) + 1)%Qc.
Proof.
  apply Qc_is_canon. unfold Qcplus. simpl.
  rewrite !Qred_correct. rewrite Nat2Z.inj_succ. unfold Z.succ.
  rewrite inject_Z_plus. reflexivity.
Qed.

Lemma fold_add_const (q : Qc) (l : list num) (acc : Qc) :
  (forall x, x ∈ l -> x = Finite q) ->
  fold_left add l (Finite acc)
  = Finite (acc + Q2Qc (inject_Z (Z.of_nat (List.length l))) * q)%Qc.
Proof.
  revert acc. induction l as [|x l IH]; intros acc H.
  - simpl. f_equal. change (Q2Qc (inject_Z (Z.of_nat 0))) with 0%Qc. ring.
  - rewrite (H x) by apply list_elem_of_here.
    cbn [fold_left add]. rewrite IH.
    + f_equal. cbn [List.length]. rewrite of_nat_S. ring.
    + intros z Hz. apply H. apply list_elem_of_further. exact Hz.
Qed.

Lemma fold_add_NaN (l : list num) : fold_left add l NaN = NaN.
Proof. induction l as [|x l IH]; [reflexivity|]. simpl. exact IH. Qed.

(** The mean of a non-empty list of equal numbers is that number. *)
Lemma mean_const (l : list num) (a : num) :
  l <> [] -> (forall x, x ∈ l -> x = a) -> mean l = a.
Proof.
  intros Hne H. unfold mean, sum. destruct a as [q|].
  - rewrite of_Z_0, (fold_add_const q l 0 H). unfold of_nat.
    rewrite div_finite.
    + f_equal.
      assert (Hn : Q2Qc (inject_Z (Z.of_nat (List.length l))) <> 0%Qc).
      { apply Q2Qc_inject_Z_neq_0. destruct l; [congruence|]. simpl. lia. }
      field. exact Hn.
    + destruct l; [congruence|]. simpl. lia.
  - destruct l as [|x l]; [congruence|].
    rewrite (H x) by apply list_elem_of_here. simpl.
    rewrite fold_add_NaN. reflexivity.
Qed.

(** ** np.mean in binary64 *)

Example round_tenth :
  Binary64.rounded (Finite (qc 1 10))
  = Finite (qc 3602879701896397 36028797018963968).
Proof. num_compute. Qed.

Example round_tie_to_even :
  Binary64.rounded (of_Z 9007199254740993) = of_Z 9007199254740992 /\
  Binary64.rounded (of_Z 9007199254740995) = of_Z 9007199254740996.
Proof. split; num_compute. Qed.

Example mean64_of_halves :
  Binary64.mean (repeat (Finite (qc 1 2)) 20) = Finite (qc 1 2).
Proof. num_compute. Qed.

Example mean64_empty : Binary64.mean [] = NaN.
Proof. reflexivity. Qed.


(** ** The monad *)

Lemma bind_ok {S A B} (c : M S A) (k : A -> M S B) s a s' :
  c s = (Ok a, s') -> bind c k s = k a s'.
Proof. intros H. unfold bind. rewrite H. reflexivity. Qed.

Lemma bind_raise {S A B} (c : M S A) (k : A -> M S B) s e s' :
  c s = (Raise e, s') -> bind c k s = (Raise e, s').
Proof. intros H. unfold bind. rewrite H. reflexivity. Qed.

(** Membership in a literal list, case by case. *)
Ltac list_cases H :=
  repeat (apply elem_of_cons in H as [H|H]);
  [..|apply elem_of_nil in H; destruct H].

Ltac in_list := repeat (first [apply list_elem_of_here | apply list_elem_of_further]).

Section Facts.

Context {value ndarray World : Type}.
Variable E : Externals value ndarray World.

Local Abbreviation pyval := (pyval value).
Local Abbreviation pyobject := (pyobject value).
Local Abbreviation Env := (@Env World).
Local Abbreviation MainState := (@MainState World).

(** Running an external operation from an environment. *)
Lemma ext_run {A} (c : M World A) (e : Env) :
  ext c e = (fst (c (world e)), {| world := snd (c (world e)); log := log e |}).
Proof. unfold ext, zoom. destruct (c (world e)). reflexivity. Qed.

Lemma in_env_run {A} (c : M Env A) (s : MainState) :
  in_env c s = (fst (c (env s)), {| env := snd (c (env s)); vars := vars s |}).
Proof. unfold in_env, zoom. destruct (c (env s)). reflexivity. Qed.

(** ** format_unit and the footprints *)

Lemma format_unit_KB (size : num) : format_unit size "KB" = (size / _1e3)%num.
Proof. reflexivity. Qed.

Lemma format_unit_MB (size : num) : format_unit size "MB" = (size / _1e6)%num.
Proof. reflexivity. Qed.

Lemma get_model_space_run (m p unit : string) (a b : Z) (w w1 w2 : World) :
  getsize E m w = (Ok a, w1) ->
  getsize E p w1 = (Ok b, w2) ->
  get_model_space E m p unit w = (Ok (format_unit (of_Z (a + b)) unit), w2).
Proof.
  intros Ha Hb. unfold get_model_space.
  rewrite (bind_ok _ _ _ _ _ Ha), (bind_ok _ _ _ _ _ Hb). reflexivity.
Qed.

(** C9. [format_unit] divides the size by 1e3 for 'KB' and by 1e6 for
    'MB' (for a finite size the quotient is the exact fraction), and the
    footprint [get_model_space] reports, when the two sizes [a] and [b] can
    be read, is [format_unit] of their sum [a + b]: with the unit 'KB' that
    [main] passes, [(a + b) / 1e3]. *)
Theorem format_unit_scales_and_model_space_sums
    (size : num) (q : Qc) (m p unit : string) (a b : Z) (w w1 w2 : World) :
  getsize E m w = (Ok a, w1) ->
  getsize E p w1 = (Ok b, w2) ->
  format_unit size "KB" = (size / _1e3)%num /\
  format_unit size "MB" = (size / _1e6)%num /\
  format_unit (Finite q) "KB" = Finite (q / Q2Qc (inject_Z 1000))%Qc /\
  format_unit (Finite q) "MB" = Finite (q / Q2Qc (inject_Z 1000000))%Qc /\
  get_model_space E m p unit w = (Ok (format_unit (of_Z (a + b)) unit), w2) /\
  get_model_space E m p "KB" w = (Ok (of_Z (a + b) / _1e3)%num, w2).
Proof.
  intros Ha Hb.
  split; [apply format_unit_KB|]. split; [apply format_unit_MB|].
  split; [rewrite format_unit_KB; apply div_finite; lia|].
  split; [rewrite format_unit_MB; apply div_finite; lia|].
  split; [exact (get_model_space_run _ _ _ _ _ _ _ _ Ha Hb)|].
  rewrite (get_model_space_run _ _ _ _ _ _ _ _ Ha Hb). reflexivity.
Qed.

(** C10. With a unit other than 'KB' and 'MB', [format_unit] hands the
    size back as it is: nothing is scaled and nothing is raised. *)
Theorem format_unit_unknown_unit (size : num) (unit : string) :
  unit <> "KB" -> unit <> "MB" -> format_unit size unit = size.
Proof.
  intros HK HM. unfold format_unit.
  destruct (decide (unit = "KB")) as [?|_]; [contradiction|].
  destruct (decide (unit = "MB")) as [?|_]; [contradiction|].
  reflexivity.
Qed.

(** ** Reconstruction *)

Lemma getitem_Some {V} (d : gmap string V) k v :
  d !! k = Some v -> getitem d k = Ok v.
Proof. intros H. unfold getitem. rewrite H. reflexivity. Qed.

Lemma getitem_None {V} (d : gmap string V) k :
  d !! k = None -> getitem d k = Raise (KeyError k).
Proof. intros H. unfold getitem. rewrite H. reflexivity. Qed.

Lemma rebuilt_KJL (d : gmap string pyval) v1 v2 v3 :
  d !! "sigma" = Some v1 -> d !! "Xrow" = Some v2 -> d !! "U" = Some v3 ->
  rebuilt_from E
    (setattr (setattr (setattr (new E KJL) "sigma" v1) "Xrow" v2) "U" v3)
    KJL d.
Proof.
  intros H1 H2 H3. split; [reflexivity|]. split.
  - intros a k H. simpl in H. list_cases H; inversion H; subst; clear H;
      (split; [eauto|]); simpl; simplify_map_eq; congruence.
  - intros a H. simpl in *.
    rewrite !lookup_insert_ne; [reflexivity|..];
      intros Heq; apply H; rewrite <- Heq; in_list.
Qed.

Lemma rebuilt_NYSTROM (d : gmap string pyval) v1 v2 v3 :
  d !! "sigma" = Some v1 -> d !! "Xrow" = Some v2 ->
  d !! "eigvec_lambda" = Some v3 ->
  rebuilt_from E
    (setattr (setattr (setattr (new E NYSTROM) "sigma" v1) "Xrow" v2)
             "eigvec_lambda" v3)
    NYSTROM d.
Proof.
  intros H1 H2 H3. split; [reflexivity|]. split.
  - intros a k H. simpl in H. list_cases H; inversion H; subst; clear H;
      (split; [eauto|]); simpl; simplify_map_eq; congruence.
  - intros a H. simpl in *.
    rewrite !lookup_insert_ne; [reflexivity|..];
      intros Heq; apply H; rewrite <- Heq; in_list.
Qed.

Lemma rebuilt_OCSVM (d : gmap string pyval) v1 v2 v3 v4 v5 :
  d !! "kernel" = Some v1 -> d !! "_gamma" = Some v2 ->
  d !! "support_vectors_" = Some v3 -> d !! "_dual_coef_" = Some v4 ->
  d !! "_intercept_" = Some v5 ->
  rebuilt_from E
    (setattr (setattr (setattr (setattr (setattr (new E OCSVM)
       "kernel" v1) "gamma" v2) "support_vectors_" v3) "dual_coef_" v4)
       "intercept_" v5)
    OCSVM d.
Proof.
  intros H1 H2 H3 H4 H5. split; [reflexivity|]. split.
  - intros a k H. simpl in H. list_cases H; inversion H; subst; clear H;
      (split; [eauto|]); simpl; simplify_map_eq; congruence.
  - intros a H. simpl in *.
    rewrite !lookup_insert_ne; [reflexivity|..];
      intros Heq; apply H; rewrite <- Heq; in_list.
Qed.

Lemma rebuilt_GMM (d : gmap string pyval) v1 v2 v3 v4 :
  d !! "covariance_type" = Some v1 -> d !! "weights_" = Some v2 ->
  d !! "means_" = Some v3 -> d !! "precisions_cholesky_" = Some v4 ->
  rebuilt_from E
    (setattr (setattr (setattr (setattr (new E GMM)
       "covariance_type" v1) "weights_" v2) "means_" v3)
       "precisions_cholesky_" v4)
    GMM d.
Proof.
  intros H1 H2 H3 H4. split; [reflexivity|]. split.
  - intros a k H. simpl in H. list_cases H; inversion H; subst; clear H;
      (split; [eauto|]); simpl; simplify_map_eq; congruence.
  - intros a H. simpl in *.
    rewrite !lookup_insert_ne; [reflexivity|..];
      intros Heq; apply H; rewrite <- Heq; in_list.
Qed.

Ltac have_key H k v Hv :=
  destruct (H k) as [v Hv]; [simpl; in_list|].

Lemma recreate_project_ok (tag : string) (pp : gmap string pyval) :
  (forall k, k ∈ required_keys (projection_class tag) -> is_Some (pp !! k)) ->
  exists project params,
    recreate_project E tag pp = Ok (project, params) /\
    flags_of (projection_class tag) params /\
    match projection_class tag with
    | Some c => exists p, project = Some p /\ rebuilt_from E p c pp
    | None => project = None
    end.
Proof.
  unfold recreate_project, projection_class. intros H.
  destruct (str_in "KJL" tag).
  - have_key H "sigma" v1 H1. have_key H "Xrow" v2 H2. have_key H "U" v3 H3.
    rewrite (getitem_Some _ _ _ H1), (getitem_Some _ _ _ H2),
      (getitem_Some _ _ _ H3). simpl.
    eexists _, _. split; [reflexivity|]. split; [split; reflexivity|].
    eexists. split; [reflexivity|]. apply rebuilt_KJL; assumption.
  - destruct (str_in "Nystrom" tag).
    + have_key H "sigma" v1 H1. have_key H "Xrow" v2 H2.
      have_key H "eigvec_lambda" v3 H3.
      rewrite (getitem_Some _ _ _ H1), (getitem_Some _ _ _ H2),
        (getitem_Some _ _ _ H3). simpl.
      eexists _, _. split; [reflexivity|]. split; [split; reflexivity|].
      eexists. split; [reflexivity|]. apply rebuilt_NYSTROM; assumption.
    + eexists _, _. split; [reflexivity|]. split; [split; reflexivity|].
      reflexivity.
Qed.

(** Looking the keys up in source order: the first absent one is the
    [KeyError]; when none is absent no listed key can be missing. *)
Ltac first_missing d k :=
  destruct (d !! k) eqn:?;
  [ rewrite (getitem_Some d k _ ltac:(eassumption)); simpl
  | exists k; split; [simpl; in_list|]; split; [assumption|];
    rewrite (getitem_None d k ltac:(assumption)); reflexivity ].

Lemma recreate_project_missing (tag : string) (pp : gmap string pyval) k :
  k ∈ required_keys (projection_class tag) -> pp !! k = None ->
  exists k', k' ∈ required_keys (projection_class tag) /\ pp !! k' = None /\
             recreate_project E tag pp = Raise (KeyError k').
Proof.
  unfold recreate_project, projection_class. intros Hk Hnone.
  destruct (str_in "KJL" tag).
  - first_missing pp "sigma". first_missing pp "Xrow". first_missing pp "U".
    simpl in Hk. list_cases Hk; subst; congruence.
  - destruct (str_in "Nystrom" tag).
    + first_missing pp "sigma". first_missing pp "Xrow".
      first_missing pp "eigvec_lambda".
      simpl in Hk. list_cases Hk; subst; congruence.
    + simpl in Hk. apply elem_of_nil in Hk. destruct Hk.
Qed.

Lemma recreate_model_ok (tag : string) (mp : gmap string pyval) c :
  detector_class tag = Some c ->
  (forall k, k ∈ required_keys (detector_class tag) -> is_Some (mp !! k)) ->
  exists model, recreate_model E tag mp = Ok model /\ rebuilt_from E model c mp.
Proof.
  unfold recreate_model, detector_class. intros Hc H.
  destruct (str_in "OCSVM" tag).
  - inversion Hc; subst c; clear Hc.
    have_key H "kernel" v1 H1. have_key H "_gamma" v2 H2.
    have_key H "support_vectors_" v3 H3. have_key H "_dual_coef_" v4 H4.
    have_key H "_intercept_" v5 H5.
    rewrite (getitem_Some _ _ _ H1), (getitem_Some _ _ _ H2),
      (getitem_Some _ _ _ H3), (getitem_Some _ _ _ H4),
      (getitem_Some _ _ _ H5). simpl.
    eexists. split; [reflexivity|]. apply rebuilt_OCSVM; assumption.
  - destruct (str_in "GMM" tag); [|discriminate].
    inversion Hc; subst c; clear Hc.
    have_key H "covariance_type" v1 H1. have_key H "weights_" v2 H2.
    have_key H "means_" v3 H3. have_key H "precisions_cholesky_" v4 H4.
    rewrite (getitem_Some _ _ _ H1), (getitem_Some _ _ _ H2),
      (getitem_Some _ _ _ H3), (getitem_Some _ _ _ H4). simpl.
    eexists. split; [reflexivity|]. apply rebuilt_GMM; assumption.
Qed.

Lemma recreate_model_missing (tag : string) (mp : gmap string pyval) k :
  k ∈ required_keys (detector_class tag) -> mp !! k = None ->
  exists k', k' ∈ required_keys (detector_class tag) /\ mp !! k' = None /\
             recreate_model E tag mp = Raise (KeyError k').
Proof.
  unfold recreate_model, detector_class. intros Hk Hnone.
  destruct (str_in "OCSVM" tag).
  - first_missing mp "kernel". first_missing mp "_gamma".
    first_missing mp "support_vectors_". first_missing mp "_dual_coef_".
    first_missing mp "_intercept_".
    simpl in Hk. list_cases Hk; subst; congruence.
  - destruct (str_in "GMM" tag).
    + first_missing mp "covariance_type". first_missing mp "weights_".
      first_missing mp "means_". first_missing mp "precisions_cholesky_".
      simpl in Hk. list_cases Hk; subst; congruence.
    + simpl in Hk. apply elem_of_nil in Hk. destruct Hk.
Qed.

Lemma recreate_model_unsupported (tag : string) (mp : gmap string pyval) :
  detector_class tag = None -> recreate_model E tag mp = Raise NotImplementedError.
Proof.
  unfold recreate_model, detector_class. intros H.
  destruct (str_in "OCSVM" tag); [discriminate|].
  destruct (str_in "GMM" tag); [discriminate|]. reflexivity.
Qed.

(** A failed reconstruction is the outcome of [evaluate_model], and
    nothing has run by then. *)
Lemma evaluate_model_recreate_raise mp pp (X : ndarray) y nums avg (e : Env) x :
  recreate E mp pp = Raise x ->
  evaluate_model E mp pp X y nums avg e = (Raise x, e).
Proof.
  intros H. unfold evaluate_model, bind, of_result. rewrite H. reflexivity.
Qed.

Lemma evaluate_model_recreate_ok mp pp (X : ndarray) y nums avg (e : Env)
    tag project params model :
  recreate E mp pp = Ok (tag, project, params, model) ->
  evaluate_model E mp pp X y nums avg e =
    if avg then
      bind (trial_loop nums (_test E model X y params project) [] [])
           (fun '(auc, test_time) => ret (mean auc, mean test_time)) e
    else _test E model X y params project e.
Proof.
  intros H. unfold evaluate_model, bind at 1, of_result. rewrite H.
  unfold deepcopy. destruct avg; reflexivity.
Qed.

Lemma recreate_tag mp pp tag :
  mp !! "model_name" = Some (PStr tag) ->
  recreate E mp pp =
    rbind (recreate_project E tag pp) (fun '(project, params) =>
    rbind (recreate_model E tag mp) (fun model =>
    Ok (tag, project, params, model))).
Proof.
  intros H. unfold recreate. rewrite (getitem_Some _ _ _ H). reflexivity.
Qed.

(** C1. A tag with none of the substrings 'OCSVM', 'GMM', 'KJL' and
    'Nystrom' never yields a model: the reconstruction raises
    [NotImplementedError] (the source's exception for an unsupported
    variant), [evaluate_model] raises it whatever the mappings, the test set
    and the averaging options are, and nothing was run or logged (the
    environment is the one it started in). No projection and no detector
    are returned for it. *)
Theorem unsupported_tag_raises
    (mp pp : gmap string pyval) (tag : string) (X : ndarray) (y : list Z)
    (nums : nat) (is_average : bool) (e : Env) :
  mp !! "model_name" = Some (PStr tag) ->
  str_in "OCSVM" tag = false ->
  str_in "GMM" tag = false ->
  str_in "KJL" tag = false ->
  str_in "Nystrom" tag = false ->
  recreate E mp pp = Raise NotImplementedError /\
  evaluate_model E mp pp X y nums is_average e = (Raise NotImplementedError, e).
Proof.
  intros Htag HO HG HK HN.
  assert (Hr : recreate E mp pp = Raise NotImplementedError).
  { rewrite (recreate_tag _ _ _ Htag).
    unfold recreate_project. rewrite HK, HN. simpl.
    rewrite recreate_model_unsupported; [reflexivity|].
    unfold detector_class. rewrite HO, HG. reflexivity. }
  split; [exact Hr|]. apply evaluate_model_recreate_raise. exact Hr.
Qed.

(** C4. For a tag that selects a detector and mappings that hold every key
    its classes read, the reconstruction succeeds and only copies: the
    projection (an instance of KJL for a tag with 'KJL', else of NYSTROM for
    a tag with 'Nystrom', else [None]) and the detector (OCSVM for a tag
    with 'OCSVM', else GMM for a tag with 'GMM') carry under each assigned
    attribute exactly the value the mapping holds under the key it is read
    from (sigma, Xrow, U; sigma, Xrow, eigvec_lambda; kernel, gamma from
    '_gamma', support_vectors_, dual_coef_ from '_dual_coef_', intercept_
    from '_intercept_'; covariance_type, weights_, means_,
    precisions_cholesky_), every other attribute is what the constructor
    set, and the flags name the projection. The reconstruction consults no
    external code, and these objects are the ones [_test] receives. *)
Theorem recreate_copies_fields
    (mp pp : gmap string pyval) (tag : string) (c : pyclass) :
  mp !! "model_name" = Some (PStr tag) ->
  detector_class tag = Some c ->
  Forall (fun k => is_Some (pp !! k)) (required_keys (projection_class tag)) ->
  Forall (fun k => is_Some (mp !! k)) (required_keys (detector_class tag)) ->
  exists project params model,
    recreate E mp pp = Ok (tag, project, params, model) /\
    match projection_class tag with
    | Some pc => exists p, project = Some p /\ rebuilt_from E p pc pp
    | None => project = None
    end /\
    flags_of (projection_class tag) params /\
    rebuilt_from E model c mp /\
    forall (X : ndarray) (y : list Z) (nums : nat) (e : Env),
      evaluate_model E mp pp X y nums false e
      = _test E model X y params project e.
Proof.
  intros Htag Hc Hpp Hmp. rewrite Forall_forall in Hpp, Hmp.
  destruct (recreate_project_ok tag pp Hpp) as (project & params & Hp & Hf & Hr).
  destruct (recreate_model_ok tag mp c Hc Hmp) as (model & Hm & Hrm).
  assert (Hrec : recreate E mp pp = Ok (tag, project, params, model)).
  { rewrite (recreate_tag _ _ _ Htag), Hp. simpl. rewrite Hm. reflexivity. }
  exists project, params, model.
  split; [exact Hrec|]. split; [exact Hr|]. split; [exact Hf|].
  split; [exact Hrm|].
  intros X y nums e.
  rewrite (evaluate_model_recreate_ok _ _ _ _ _ _ _ _ _ _ _ Hrec). reflexivity.
Qed.

(** C5. When a key that the selected projection class or the selected
    detector class reads is absent from its mapping, [evaluate_model]
    raises [KeyError] (the source's exception for a malformed snapshot) for
    an absent required key, the first one in reading order; no default
    takes the place of the value and nothing has been run. *)
Theorem missing_field_raises_KeyError
    (mp pp : gmap string pyval) (tag k : string) (X : ndarray) (y : list Z)
    (nums : nat) (is_average : bool) (e : Env) :
  mp !! "model_name" = Some (PStr tag) ->
  (k ∈ required_keys (projection_class tag) /\ pp !! k = None) \/
  (k ∈ required_keys (detector_class tag) /\ mp !! k = None) ->
  exists k',
    ((k' ∈ required_keys (projection_class tag) /\ pp !! k' = None) \/
     (k' ∈ required_keys (detector_class tag) /\ mp !! k' = None)) /\
    evaluate_model E mp pp X y nums is_average e = (Raise (KeyError k'), e).
Proof.
  intros Htag Hmiss.
  assert (Hp : (exists k', k' ∈ required_keys (projection_class tag) /\
                           pp !! k' = None /\
                           recreate_project E tag pp = Raise (KeyError k')) \/
               (forall k', k' ∈ required_keys (projection_class tag) ->
                           is_Some (pp !! k'))).
  { destruct (decide (Forall (fun k' => is_Some (pp !! k'))
                             (required_keys (projection_class tag))))
      as [Hall|Hnot].
    - right. intros k' Hk'. rewrite Forall_forall in Hall. auto.
    - left. apply not_Forall_Exists in Hnot; [|intros ?; apply _].
      apply Exists_exists in Hnot as (k0 & Hin & Hno).
      apply (recreate_project_missing tag pp k0 Hin).
      unfold compose in Hno.
      destruct (pp !! k0); [exfalso; apply Hno; eexists; reflexivity|reflexivity]. }
  destruct Hp as [(k' & Hin & Hnone & Hraise)|Hall].
  - exists k'. split; [left; auto|].
    apply evaluate_model_recreate_raise.
    rewrite (recreate_tag _ _ _ Htag), Hraise. reflexivity.
  - destruct Hmiss as [[Hin Hnone]|[Hin Hnone]].
    + destruct (Hall k Hin) as [v Hv]. congruence.
    + destruct (recreate_project_ok tag pp Hall) as (project & params & Hp & _).
      destruct (recreate_model_missing tag mp k Hin Hnone)
        as (k' & Hin' & Hnone' & Hraise).
      exists k'. split; [right; auto|].
      apply evaluate_model_recreate_raise.
      rewrite (recreate_tag _ _ _ Htag), Hp. simpl. rewrite Hraise. reflexivity.
Qed.

(** ** _test *)

Lemma ext_ok {A} (c : M World A) (w w' : World) l a :
  c w = (Ok a, w') ->
  ext c {| world := w; log := l |} = (Ok a, {| world := w'; log := l |}).
Proof. intros H. rewrite ext_run. simpl. rewrite H. reflexivity. Qed.

Lemma ext_raise {A} (c : M World A) (w w' : World) l x :
  c w = (Raise x, w') ->
  ext c {| world := w; log := l |} = (Raise x, {| world := w'; log := l |}).
Proof. intros H. rewrite ext_run. simpl. rewrite H. reflexivity. Qed.

(** Without a configured projection the block calls nothing. *)
Lemma projection_block_pass (params : gmap string bool)
    (project : option pyobject) (X : ndarray) (w : World) :
  flag_set params "is_kjl" = false ->
  flag_set params "is_nystrom" = false ->
  projection_block E params project X w = (Ok X, w).
Proof.
  intros H1 H2. unfold projection_block. rewrite H1, H2. reflexivity.
Qed.

(** A run of [_test] in which every external call returns. *)
Lemma _test_run (model : pyobject) (X : ndarray) (y : list Z)
    (params : gmap string bool) (project : option pyobject)
    (w0 w1 w2 w3 w4 w5 w6 : World) (l : list log_entry)
    (X' : ndarray) (proj pred : num) (scores fpr tpr : list num) :
  profile_enable E w0 = (Ok tt, w1) ->
  projection_block E params project X w1 = (Ok X', w2) ->
  profile_total_tt E w2 = (Ok proj, w3) ->
  profile_enable E w3 = (Ok tt, w4) ->
  decision_function E model X' w4 = (Ok scores, w5) ->
  profile_total_tt E w5 = (Ok pred, w6) ->
  Roc.roc_curve y scores 1 = Ok (fpr, tpr) ->
  _test E model X y params project {| world := w0; log := l |}
  = (Ok (Roc.auc fpr tpr, (zero + zero + proj + pred)%num),
     {| world := w6;
        log := l ++ [InfoTestTime (zero + zero + proj + pred)%num
                                  zero zero proj pred] |}).
Proof.
  intros H1 H2 H3 H4 H5 H6 H7. unfold _test.
  rewrite (bind_ok _ _ _ _ _ (ext_ok _ _ _ l _ H1)).
  rewrite (bind_ok _ _ _ _ _ (ext_ok _ _ _ l _ H2)).
  rewrite (bind_ok _ _ _ _ _ (ext_ok _ _ _ l _ H3)).
  rewrite (bind_ok _ _ _ _ _ (ext_ok _ _ _ l _ H4)).
  rewrite (bind_ok _ _ _ _ _ (ext_ok _ _ _ l _ H5)).
  rewrite (bind_ok _ _ _ _ _ (ext_ok _ _ _ l _ H6)).
  unfold bind, of_result. rewrite H7. reflexivity.
Qed.

(** What a call of [_test] leaves in the log: its one line when it
    returns, nothing when it raises. *)
Lemma _test_log (model : pyobject) (X : ndarray) (y : list Z)
    (params : gmap string bool) (project : option pyobject) (e e' : Env) r :
  _test E model X y params project e = (r, e') ->
  match r with
  | Ok (_, t) =>
      exists proj pred, log e' = log e ++ [InfoTestTime t zero zero proj pred]
  | Raise _ => log e' = log e
  end.
Proof.
  unfold _test, bind, of_result. rewrite !ext_run.
  repeat match goal with
         | |- context [fst (?c ?w)] =>
             let r := fresh "r" in let w' := fresh "w" in
             destruct (c w) as [r w']; simpl; destruct r; simpl;
             rewrite ?ext_run; simpl
         end;
    try (intros H; inversion H; subst; reflexivity).
  match goal with
  | |- context [Roc.roc_curve y ?sc 1] =>
      destruct (Roc.roc_curve y sc 1) as [[fpr tpr]|x]
  end; simpl; intros H; inversion H; subst; simpl; eauto.
Qed.

(** C6, as the source has it. When every external call of a run returns,
    [_test] returns the pair (AUC, total test time) where the total is the
    sum standardization + projection + seek + prediction of the four stage
    times it logs; the standardization and the seek times are the constant
    zero; the projection time is what the profiler reports for the
    projection block and the prediction time what it reports for the call
    of [decision_function]. When neither [is_kjl] nor [is_nystrom] is set
    the projection block calls no [transform]: the test set goes to the
    detector as it is and the block leaves the world untouched, but its
    time is still the profiler's reading, not a constant. *)
Theorem test_time_is_sum_of_stage_times
    (model : pyobject) (X : ndarray) (y : list Z)
    (params : gmap string bool) (project : option pyobject)
    (w0 w1 w2 w3 w4 w5 w6 : World) (l : list log_entry)
    (X' : ndarray) (proj pred : num) (scores fpr tpr : list num) :
  profile_enable E w0 = (Ok tt, w1) ->
  projection_block E params project X w1 = (Ok X', w2) ->
  profile_total_tt E w2 = (Ok proj, w3) ->
  profile_enable E w3 = (Ok tt, w4) ->
  decision_function E model X' w4 = (Ok scores, w5) ->
  profile_total_tt E w5 = (Ok pred, w6) ->
  Roc.roc_curve y scores 1 = Ok (fpr, tpr) ->
  let std := zero in
  let seek := zero in
  let total := (std + proj + seek + pred)%num in
  _test E model X y params project {| world := w0; log := l |}
  = (Ok (Roc.auc fpr tpr, total),
     {| world := w6; log := l ++ [InfoTestTime total std seek proj pred] |}) /\
  (flag_set params "is_kjl" = false ->
   flag_set params "is_nystrom" = false ->
   X' = X /\ w2 = w1).
Proof.
  intros H1 H2 H3 H4 H5 H6 H7 std seek total. split.
  - rewrite (_test_run _ _ _ _ _ _ _ _ _ _ _ _ _ _ _ _ _ _ _
               H1 H2 H3 H4 H5 H6 H7).
    assert (Ht : (zero + zero + proj + pred)%num = total).
    { unfold total, std, seek. rewrite (add_zero_l zero), (add_zero_r _).
      reflexivity. }
    rewrite Ht. reflexivity.
  - intros Hk Hn.
    rewrite (projection_block_pass _ _ _ _ Hk Hn) in H2.
    inversion H2. split; reflexivity.
Qed.

(** C8. The AUC [_test] returns is the trapezoidal area under the ROC
    points of the labels and of the scores of [decision_function], computed
    with the positive label 1; the points come from the sweep of the score
    threshold from the highest score to the lowest. For the labels
    [0,0,1,1] and the scores [0.1, 0.2, -0.1, -0.2] the area is 0. *)
Theorem test_auc_is_area_under_roc
    (model : pyobject) (X : ndarray) (y : list Z)
    (params : gmap string bool) (project : option pyobject)
    (w0 w1 w2 w3 w4 w5 w6 : World) (l : list log_entry)
    (X' : ndarray) (proj pred : num) (scores fpr tpr : list num) :
  profile_enable E w0 = (Ok tt, w1) ->
  projection_block E params project X w1 = (Ok X', w2) ->
  profile_total_tt E w2 = (Ok proj, w3) ->
  profile_enable E w3 = (Ok tt, w4) ->
  decision_function E model X' w4 = (Ok scores, w5) ->
  profile_total_tt E w5 = (Ok pred, w6) ->
  Roc.roc_curve y scores 1 = Ok (fpr, tpr) ->
  (exists t e',
     _test E model X y params project {| world := w0; log := l |}
     = (Ok (Roc.trapz fpr tpr, t), e')) /\
  Roc.roc_auc y scores = Ok (Roc.trapz fpr tpr) /\
  Roc.roc_auc [0; 0; 1; 1]%Z
    [Finite (qc 1 10); Finite (qc 2 10); Finite (qc (-1) 10);
     Finite (qc (-2) 10)]
  = Ok zero.
Proof.
  intros H1 H2 H3 H4 H5 H6 H7. split; [|split].
  - eexists _, _.
    exact (_test_run _ _ _ _ _ _ _ _ _ _ _ _ _ _ _ _ _ _ _
             H1 H2 H3 H4 H5 H6 H7).
  - unfold Roc.roc_auc. rewrite H7. reflexivity.
  - num_compute.
Qed.

(** ** evaluate_model *)

(** The loop of lines 176-181 appends the results of [n] runs. *)
Lemma trial_loop_trials (n : nat) (trial : M Env (num * num))
    (auc test_time : list num) (e : Env) :
  trial_loop n trial auc test_time e
  = match trials n trial e with
    | (Ok rs, e') => (Ok (auc ++ map fst rs, test_time ++ map snd rs), e')
    | (Raise x, e') => (Raise x, e')
    end.
Proof.
  revert auc test_time e. induction n as [|n IH]; intros auc test_time e.
  - simpl. unfold ret. rewrite !app_nil_r. reflexivity.
  - simpl. unfold bind. destruct (trial e) as [[[a t]|x] e1]; [|reflexivity].
    rewrite IH. destruct (trials n trial e1) as [[rs|x] e2]; [|reflexivity].
    unfold ret. simpl. rewrite <- !app_assoc. reflexivity.
Qed.


Lemma test_time_lines_app (l1 l2 : list log_entry) :
  test_time_lines (l1 ++ l2) = test_time_lines l1 ++ test_time_lines l2.
Proof. unfold test_time_lines. apply List.filter_app. Qed.

(** Each run of [_test] that returns adds one "Total test time" line. *)
Lemma trials_test_lines (n : nat) (model : pyobject) (X : ndarray)
    (y : list Z) (params : gmap string bool) (project : option pyobject)
    (e e' : Env) rs :
  trials n (_test E model X y params project) e = (Ok rs, e') ->
  List.length (test_time_lines (log e'))
  = (List.length (test_time_lines (log e)) + n)%nat.
Proof.
  revert e rs. induction n as [|n IH]; intros e rs.
  - simpl. unfold ret. intros H. inversion H. lia.
  - simpl. unfold bind.
    destruct (_test E model X y params project e) as [[[a t]|x] e1] eqn:Ht;
      [|discriminate].
    destruct (trials n _ e1) as [[rs'|x] e2] eqn:Hrs; [|discriminate].
    unfold ret. intros H. inversion H; subst.
    rewrite (IH _ _ Hrs).
    apply _test_log in Ht. destruct Ht as (proj & pred & Hl).
    rewrite Hl, test_time_lines_app, length_app. simpl. lia.
Qed.



(** A run of [_test] that raises ends [evaluate_model] with that
    exception: the later runs do not take place. *)
Lemma trials_raise_first {S A} (n : nat) (c : M S A) (s s' : S) x :
  c s = (Raise x, s') -> trials (Datatypes.S n) c s = (Raise x, s').
Proof. intros H. simpl. unfold bind. rewrite H. reflexivity. Qed.

(** ** The loop of main *)

Lemma bind_inv {S A B} (c : M S A) (k : A -> M S B) s r s' :
  bind c k s = (r, s') ->
  (exists a s1, c s = (Ok a, s1) /\ k a s1 = (r, s')) \/
  (exists x, c s = (Raise x, s') /\ r = Raise x).
Proof.
  unfold bind. destruct (c s) as [[a|x] s1]; intros H.
  - left. eauto.
  - right. inversion H; subst. eauto.
Qed.

Ltac bind_inv H :=
  apply bind_inv in H as [(? & ? & ? & H) | (? & ? & ?)].

Lemma in_env_ext_effect {A} (c : M World A) (s s' : MainState) r :
  in_env (ext c) s = (r, s') -> lists_and_log s' = lists_and_log s.
Proof.
  rewrite in_env_run, ext_run. intros H. inversion H; subst. reflexivity.
Qed.

Lemma update_run (f : main_vars -> main_vars) (s s' : MainState) r :
  update f s = (r, s') -> r = Ok tt /\ s' = {| env := env s; vars := f (vars s) |}.
Proof. unfold update. intros H. inversion H. split; reflexivity. Qed.

Lemma in_env_inv {A} (c : M Env A) (s s' : MainState) r :
  in_env c s = (r, s') -> vars s' = vars s /\ c (env s) = (r, env s').
Proof.
  rewrite in_env_run. intros H. inversion H; subst. simpl.
  split; [reflexivity|]. destruct (c (env s)); reflexivity.
Qed.

(** Runs of [_test], returning or not, add only "Total test time" lines. *)
Lemma trials_log (n : nat) (model : pyobject) (X : ndarray)
    (y : list Z) (params : gmap string bool) (project : option pyobject)
    (e e' : Env) r :
  trials n (_test E model X y params project) e = (r, e') ->
  exists new, log e' = log e ++ new /\ Forall is_test_time_line new.
Proof.
  revert e r. induction n as [|n IH]; intros e r.
  - simpl. unfold ret. intros H. inversion H; subst.
    exists []. rewrite app_nil_r. split; [reflexivity|constructor].
  - simpl. intros H. bind_inv H.
    + bind_inv H.
      * unfold ret in H. inversion H; subst.
        apply _test_log in H0. destruct x as [a t].
        destruct H0 as (proj & pred & Hl).
        apply IH in H1 as (new & Hn & Hf).
        exists (InfoTestTime t zero zero proj pred :: new).
        split; [rewrite Hn, Hl, <- app_assoc; reflexivity|].
        constructor; [exact I|exact Hf].
      * subst. apply _test_log in H0. destruct x as [a t].
        destruct H0 as (proj & pred & Hl).
        apply IH in H as (new & Hn & Hf).
        exists (InfoTestTime t zero zero proj pred :: new).
        split; [rewrite Hn, Hl, <- app_assoc; reflexivity|].
        constructor; [exact I|exact Hf].
    + subst. apply _test_log in H. simpl in H.
      exists []. rewrite app_nil_r. split; [exact H|constructor].
Qed.

Lemma evaluate_model_log mp pp (X : ndarray) y nums avg (e e' : Env) r :
  evaluate_model E mp pp X y nums avg e = (r, e') ->
  exists new, log e' = log e ++ new /\ Forall is_test_time_line new.
Proof.
  destruct (recreate E mp pp) as [[[[tag project] params] model]|x] eqn:Hrec.
  - rewrite (evaluate_model_recreate_ok _ _ _ _ _ _ _ _ _ _ _ Hrec).
    destruct avg.
    + unfold bind. rewrite trial_loop_trials.
      destruct (trials nums _ e) as [[rs|x] e1] eqn:Hrs;
        intros H; inversion H; subst; exact (trials_log _ _ _ _ _ _ _ _ _ Hrs).
    + intros H. apply (trials_log 1 model X y params project e e'
                         (match r with Ok p => Ok [p] | Raise x => Raise x end)).
      simpl. unfold bind. rewrite H. destruct r; reflexivity.
  - rewrite (evaluate_model_recreate_raise _ _ _ _ _ _ _ _ Hrec).
    intros H. inversion H; subst.
    exists []. rewrite app_nil_r. split; [reflexivity|constructor].
Qed.

(** "Total test time" lines are invisible to the three readings of the
    log that concern the repeats. *)
Lemma repeats_logged_app (l1 l2 : list log_entry) :
  repeats_logged (l1 ++ l2) = repeats_logged l1 ++ repeats_logged l2.
Proof. unfold repeats_logged. apply omap_app. Qed.

Lemma tracebacks_app (l1 l2 : list log_entry) :
  tracebacks (l1 ++ l2) = tracebacks l1 ++ tracebacks l2.
Proof. unfold tracebacks. apply omap_app. Qed.

Lemma error_lines_app (l1 l2 : list log_entry) :
  error_lines (l1 ++ l2) = error_lines l1 ++ error_lines l2.
Proof. unfold error_lines. apply omap_app. Qed.

Lemma test_lines_quiet (new : list log_entry) :
  Forall is_test_time_line new ->
  repeats_logged new = [] /\ tracebacks new = [] /\ error_lines new = [].
Proof.
  induction 1 as [|e new He _ (IH1 & IH2 & IH3)]; [auto|].
  destruct e; try contradiction. simpl. auto.
Qed.

Lemma reached_cons (k n : nat) (p : list nat) :
  reached k (n :: p) = (Nat.b2n (Nat.leb k n) + reached k p)%nat.
Proof. unfold reached. simpl. destruct (Nat.leb k n); reflexivity. Qed.

Lemma failures_cons (n : nat) (p : list nat) :
  failures (n :: p) = (Nat.b2n (Nat.ltb n 3) + failures p)%nat.
Proof. unfold failures. simpl. destruct (Nat.ltb n 3); reflexivity. Qed.

Lemma reached_le_length (k : nat) (p : list nat) :
  (reached k p <= List.length p)%nat.
Proof.
  induction p as [|n p IH]; [unfold reached; simpl; lia|].
  rewrite reached_cons. cbn [List.length].
  destruct (Nat.leb k n); cbn [Nat.b2n]; lia.
Qed.

Lemma reached_mono (k k' : nat) (p : list nat) :
  (k <= k')%nat -> (reached k' p <= reached k p)%nat.
Proof.
  intros Hk. induction p as [|n p IH]; [unfold reached; simpl; lia|].
  rewrite !reached_cons.
  destruct (Nat.leb_spec k' n), (Nat.leb_spec k n); cbn [Nat.b2n]; lia.
Qed.

Lemma reached_failures (p : list nat) :
  (reached 3 p + failures p = List.length p)%nat.
Proof.
  induction p as [|n p IH]; [reflexivity|].
  rewrite reached_cons, failures_cons. cbn [List.length].
  destruct (Nat.leb_spec 3 n), (Nat.ltb_spec n 3); cbn [Nat.b2n]; lia.
Qed.

Section Loop.

Variables (dataset_name model_name in_dir unit_ : string).
Variable nums_average : nat.

Local Abbreviation load := (load_stage E model_name in_dir unit_).
Local Abbreviation test_set := (test_set_stage E in_dir unit_).
Local Abbreviation evaluation := (evaluate_stage E nums_average).
Local Abbreviation body :=
  (repeat_body E model_name in_dir unit_ nums_average).
Local Abbreviation step :=
  (repeat_step E dataset_name model_name in_dir unit_ nums_average).
Local Abbreviation done_of :=
  (stages_done E model_name in_dir unit_ nums_average).
Local Abbreviation progress_of :=
  (progress E dataset_name model_name in_dir unit_ nums_average).

Ltac effects :=
  unfold model_spaces_append, test_spaces_append, aucs_append,
    test_times_append, set_X_test_shape in *;
  repeat match goal with
         | H : in_env (ext _) _ = (_, _) |- _ => apply in_env_ext_effect in H
         | H : update _ _ = (_, _) |- _ =>
             apply update_run in H as [? ?]
         | H : ret _ _ = (_, _) |- _ => unfold ret in H
         end;
  unfold lists_and_log in *; simplify_eq/=.

Ltac lists_eq := repeat first [reflexivity | congruence | f_equal].

Lemma load_stage_effect (i : nat) (s s1 : MainState) r :
  load i s = (r, s1) ->
  exists ms,
    lists_and_log s1
    = (aucs (vars s), test_times (vars s), model_spaces (vars s) ++ ms,
       test_spaces (vars s), log (env s)) /\
    match r with
    | Ok _ => exists x, ms = [x]
    | Raise _ => ms = []
    end.
Proof.
  unfold load_stage. intros H.
  bind_inv H; [bind_inv H; [bind_inv H; [bind_inv H|]|]|].
  - effects. eexists [_]. split; [lists_eq|eauto].
  - effects.
  - exists []. rewrite app_nil_r. effects. split; [lists_eq|reflexivity].
  - exists []. rewrite app_nil_r. effects. split; [lists_eq|reflexivity].
  - exists []. rewrite app_nil_r. effects. split; [lists_eq|reflexivity].
Qed.

Lemma test_set_stage_effect (s s1 : MainState) r :
  test_set s = (r, s1) ->
  exists ts,
    lists_and_log s1
    = (aucs (vars s), test_times (vars s), model_spaces (vars s),
       test_spaces (vars s) ++ ts, log (env s)) /\
    match r with
    | Ok _ => exists x, ts = [x]
    | Raise _ => ts = []
    end.
Proof.
  unfold test_set_stage. intros H.
  bind_inv H; [destruct x as [X_test y_test];
               bind_inv H; [bind_inv H; [bind_inv H|]|]|].
  - effects. eexists [_]. split; [lists_eq|eauto].
  - effects.
  - exists []. rewrite app_nil_r. effects. split; [lists_eq|reflexivity].
  - effects.
  - exists []. rewrite app_nil_r. effects. split; [lists_eq|reflexivity].
Qed.

Lemma evaluate_stage_effect mp pp (X : ndarray) y (s s1 : MainState) r :
  evaluation mp pp X y s = (r, s1) ->
  exists au tt new,
    lists_and_log s1
    = (aucs (vars s) ++ au, test_times (vars s) ++ tt, model_spaces (vars s),
       test_spaces (vars s), log (env s) ++ new) /\
    Forall is_test_time_line new /\
    match r with
    | Ok _ => exists a t, au = [a] /\ tt = [t]
    | Raise _ => au = [] /\ tt = []
    end.
Proof.
  unfold evaluate_stage. intros H.
  bind_inv H.
  - destruct x as [a t].
    apply in_env_inv in H0 as [Hv He].
    apply evaluate_model_log in He as (new & Hn & Hf).
    bind_inv H.
    + effects. exists [a], [t], new.
      split; [lists_eq|]. split; [exact Hf|eauto].
    + effects.
  - subst. apply in_env_inv in H as [Hv He].
    apply evaluate_model_log in He as (new & Hn & Hf).
    exists [], [], new. rewrite !app_nil_r.
    split; [unfold lists_and_log; lists_eq|]. split; [exact Hf|auto].
Qed.

Lemma repeat_body_effect (i : nat) (s s1 : MainState) r :
  body i s = (r, s1) ->
  exists au tt ms ts new,
    lists_and_log s1
    = (aucs (vars s) ++ au, test_times (vars s) ++ tt,
       model_spaces (vars s) ++ ms, test_spaces (vars s) ++ ts,
       log (env s) ++ new) /\
    Forall is_test_time_line new /\
    List.length au = Nat.b2n (Nat.leb 3 (done_of i s)) /\
    List.length tt = Nat.b2n (Nat.leb 3 (done_of i s)) /\
    List.length ms = Nat.b2n (Nat.leb 1 (done_of i s)) /\
    List.length ts = Nat.b2n (Nat.leb 2 (done_of i s)) /\
    is_ok r = Nat.leb 3 (done_of i s).
Proof.
  unfold repeat_body, stages_done. intros H.
  destruct (load i s) as [[[mp pp]|x] s2] eqn:Hl.
  - rewrite (bind_ok _ _ _ _ _ Hl) in H.
    apply load_stage_effect in Hl as (ms & Hs2 & [x ->]).
    destruct (test_set s2) as [[[X y]|x'] s3] eqn:Ht.
    + rewrite (bind_ok _ _ _ _ _ Ht) in H.
      apply test_set_stage_effect in Ht as (ts & Hs3 & [x' ->]).
      rewrite H.
      apply evaluate_stage_effect in H as (au & tt & new & Hs1 & Hf & Hr).
      unfold lists_and_log in *. simplify_eq/=.
      exists au, tt, [x], [x'], new.
      split; [lists_eq|]. split; [exact Hf|].
      destruct r as [[]|x0].
      * destruct Hr as (a & t & -> & ->). auto.
      * destruct Hr as [-> ->]. auto.
    + rewrite (bind_raise _ _ _ _ _ Ht) in H. inversion H; subst.
      apply test_set_stage_effect in Ht as (ts & Hs3 & ->).
      unfold lists_and_log in *. simplify_eq/=.
      exists [], [], [x], [], []. rewrite !app_nil_r in *.
      split; [lists_eq|]. split; [constructor|auto].
  - rewrite (bind_raise _ _ _ _ _ Hl) in H. inversion H; subst.
    apply load_stage_effect in Hl as (ms & Hs2 & ->).
    unfold lists_and_log in *. simplify_eq/=.
    exists [], [], [], [], []. rewrite !app_nil_r in *.
    split; [lists_eq|]. split; [constructor|auto].
Qed.

Lemma repeat_handler_run (x : exn) (s : MainState) :
  repeat_handler dataset_name model_name x s
  = (Ok (),
     {| env := {| world := world (env s);
                  log := log (env s)
                         ++ [PrintExc x; LogError dataset_name model_name] |};
        vars := vars s |}).
Proof.
  unfold repeat_handler, bind. rewrite !in_env_run. simpl.
  rewrite <- app_assoc. reflexivity.
Qed.

(** One iteration never raises. It announces the repeat, runs the body,
    and when the body raised prints the traceback and logs the error. *)
Lemma repeat_step_effect (i : nat) (s : MainState) :
  exists s' au tt ms ts new,
    step i s = (Ok (), s') /\
    lists_and_log s'
    = (aucs (vars s) ++ au, test_times (vars s) ++ tt,
       model_spaces (vars s) ++ ms, test_spaces (vars s) ++ ts,
       log (env s) ++ new) /\
    List.length au = Nat.b2n (Nat.leb 3 (done_of i (body_start i s))) /\
    List.length tt = Nat.b2n (Nat.leb 3 (done_of i (body_start i s))) /\
    List.length ms = Nat.b2n (Nat.leb 1 (done_of i (body_start i s))) /\
    List.length ts = Nat.b2n (Nat.leb 2 (done_of i (body_start i s))) /\
    repeats_logged new = [i] /\
    List.length (tracebacks new)
    = Nat.b2n (Nat.ltb (done_of i (body_start i s)) 3) /\
    List.length (error_lines new)
    = Nat.b2n (Nat.ltb (done_of i (body_start i s)) 3) /\
    (forall x s1, body i (body_start i s) = (Raise x, s1) ->
       exists new', Forall is_test_time_line new' /\
         new = InfoRepeat i :: new' ++
                 [PrintExc x; LogError dataset_name model_name]).
Proof.
  unfold repeat_step, body_start.
  set (s0 := (in_env (emit (InfoRepeat i)) s).2).
  assert (Hs0 : in_env (emit (InfoRepeat i)) s = (Ok (), s0)) by reflexivity.
  assert (Hv0 : vars s0 = vars s) by reflexivity.
  assert (Hl0 : log (env s0) = log (env s) ++ [InfoRepeat i]) by reflexivity.
  clearbody s0.
  rewrite (bind_ok _ _ _ _ _ Hs0). unfold try_except.
  destruct (body i s0) as [r s1] eqn:Hb.
  pose proof (repeat_body_effect _ _ _ _ Hb)
    as (au & tt & ms & ts & new & Hl & Hf & Hau & Htt & Hms & Hts & Hok).
  destruct (test_lines_quiet _ Hf) as (Q1 & Q2 & Q3).
  assert (Hlt : Nat.ltb (done_of i s0) 3 = negb (Nat.leb 3 (done_of i s0))).
  { destruct (Nat.leb_spec 3 (done_of i s0)), (Nat.ltb_spec (done_of i s0) 3);
      simpl; try reflexivity; lia. }
  unfold lists_and_log in Hl. rewrite Hv0, Hl0 in Hl.
  injection Hl as HA HT HM HS HL.
  destruct r as [[]|x].
  - eexists s1, au, tt, ms, ts, (InfoRepeat i :: new).
    split; [reflexivity|].
    split; [unfold lists_and_log; rewrite HL, <- app_assoc; lists_eq|].
    rewrite Hlt. rewrite <- Hok in *. simpl in *.
    rewrite Q1, Q2, Q3. simpl.
    do 7 (split; [assumption || reflexivity|]).
    intros x s2 Hx. discriminate.
  - rewrite repeat_handler_run.
    eexists _, au, tt, ms, ts,
      (InfoRepeat i :: new ++ [PrintExc x; LogError dataset_name model_name]).
    split; [reflexivity|].
    split.
    { unfold lists_and_log. simpl.
      rewrite HL, <- !app_assoc. simpl. lists_eq. }
    rewrite Hlt. rewrite <- Hok in *. simpl in *.
    rewrite repeats_logged_app, tracebacks_app, error_lines_app, Q1, Q2, Q3.
    simpl. do 7 (split; [assumption || reflexivity|]).
    intros x' s2 Hx. inversion Hx; subst. exists new. auto.
Qed.

Lemma progress_length (l : list nat) (s : MainState) :
  List.length (progress_of l s) = List.length l.
Proof.
  revert s. induction l as [|i l IH]; intros s; [reflexivity|].
  simpl. rewrite IH. reflexivity.
Qed.

(** The loop never raises; what it leaves in the lists and in the log is
    counted by the stages each repeat completed. *)
Lemma for_each_step_effect (l : list nat) (s : MainState) :
  exists s',
    for_each l step s = (Ok (), s') /\
    List.length (aucs (vars s'))
    = (List.length (aucs (vars s)) + reached 3 (progress_of l s))%nat /\
    List.length (test_times (vars s'))
    = (List.length (test_times (vars s)) + reached 3 (progress_of l s))%nat /\
    List.length (model_spaces (vars s'))
    = (List.length (model_spaces (vars s)) + reached 1 (progress_of l s))%nat /\
    List.length (test_spaces (vars s'))
    = (List.length (test_spaces (vars s)) + reached 2 (progress_of l s))%nat /\
    repeats_logged (log (env s')) = repeats_logged (log (env s)) ++ l /\
    List.length (tracebacks (log (env s')))
    = (List.length (tracebacks (log (env s)))
       + failures (progress_of l s))%nat /\
    List.length (error_lines (log (env s')))
    = (List.length (error_lines (log (env s)))
       + failures (progress_of l s))%nat.
Proof.
  revert s. induction l as [|i l IH]; intros s.
  - exists s. simpl. unfold ret, reached, failures. simpl.
    rewrite app_nil_r, !Nat.add_0_r. auto 10.
  - destruct (repeat_step_effect i s)
      as (s1 & au & tt & ms & ts & new & Hstep & Hl & Hau & Htt & Hms & Hts
          & Hrep & Htb & Herr & _).
    destruct (IH s1) as (s' & Hloop & IA & IT & IM & IS & IR & ITb & IE).
    exists s'. cbn [for_each progress].
    rewrite (bind_ok _ _ _ _ _ Hstep). split; [exact Hloop|].
    assert (Hs1 : (step i s).2 = s1) by (rewrite Hstep; reflexivity).
    rewrite Hs1, !reached_cons, failures_cons.
    unfold lists_and_log in Hl. injection Hl as HA HT HM HS HL.
    rewrite IA, IT, IM, IS, IR, ITb, IE, HA, HT, HM, HS, HL.
    rewrite repeats_logged_app, tracebacks_app, error_lines_app, !length_app.
    rewrite Hau, Htt, Hms, Hts, Hrep, Htb, Herr, <- app_assoc. simpl.
    repeat (split; [lia || reflexivity|]). lia.
Qed.

End Loop.

(** [main] up to the record [res]: it returns, and the record holds the
    lists the loop built. *)
Lemma main_res_effect (dataset_name model_name feat_set : string)
    (is_gs : bool) (nums_average : nat) (s : MainState) :
  exists res s',
    main_res E dataset_name model_name feat_set is_gs nums_average s
    = (Ok res, s') /\
    let p := main_progress E dataset_name model_name feat_set is_gs
                           nums_average s in
    List.length p = n_repeats /\
    List.length (res_aucs res) = reached 3 p /\
    List.length (res_test_times res) = reached 3 p /\
    List.length (res_model_spaces res) = reached 1 p /\
    List.length (res_test_spaces res) = reached 2 p /\
    repeats_logged (log (env s'))
    = repeats_logged (log (env s)) ++ seq 0 n_repeats /\
    List.length (tracebacks (log (env s')))
    = (List.length (tracebacks (log (env s))) + failures p)%nat /\
    List.length (error_lines (log (env s')))
    = (List.length (error_lines (log (env s))) + failures p)%nat.
Proof.
  unfold main_res, main_progress, repeat_loop.
  set (in_dir := pth_join "speedup/data/models" _).
  set (s0 := {| env := {| world := world (env s);
                          log := log (env s)
                                 ++ [InfoStart dataset_name model_name
                                               feat_set in_dir] |};
                vars := initial_vars |}).
  assert (Hp : (bind (in_env (emit (InfoStart dataset_name model_name feat_set
                                              in_dir)))
                     (fun _ => update (fun _ => initial_vars)) s).2 = s0).
  { unfold bind. rewrite in_env_run. reflexivity. }
  rewrite Hp.
  destruct (for_each_step_effect dataset_name model_name in_dir "KB"
              nums_average (seq 0 n_repeats) s0)
    as (s1 & Hloop & IA & IT & IM & IS & IR & ITb & IE).
  eexists _, _. split.
  - unfold bind at 1. rewrite in_env_run. cbn [fst snd emit].
    unfold bind at 1. unfold update at 1. fold s0.
    rewrite (bind_ok _ _ _ _ _ Hloop).
    unfold bind, get_vars. rewrite !in_env_run. reflexivity.
  - cbn zeta. cbn [fst snd env vars log res_aucs res_test_times
                   res_model_spaces res_test_spaces emit world].
    rewrite progress_length, length_seq.
    change (vars s0) with initial_vars in *.
    change (log (env s0))
      with (log (env s) ++ [InfoStart dataset_name model_name feat_set in_dir])
      in *.
    cbn [initial_vars aucs test_times model_spaces test_spaces List.length]
      in IA, IT, IM, IS.
    rewrite !repeats_logged_app, !tracebacks_app, !error_lines_app in *.
    cbn [repeats_logged tracebacks error_lines omap] in *.
    rewrite ?app_nil_r, ?Nat.add_0_r in *.
    auto 10.
Qed.



(** C2, as the source has it. [main] always reaches the record [res]. In
    it [aucs] and [test_times] have one entry for each repeat that
    completed (all three stages of the [try] body), so a repeat that raised
    left nothing in them, no placeholder either. [model_spaces] has one
    entry for each repeat that got through stage 2.1 (both parameter files
    loaded and their sizes read) and [test_spaces] one for each repeat that
    also got through stage 2.2 (test set loaded and its size read): these
    two are appended before the evaluation, so they also count repeats
    that raised later. Hence len(aucs) = len(test_times) <=
    len(test_spaces) <= len(model_spaces) <= 5. *)
Theorem main_lists_count_completed_stages
    (dataset_name model_name feat_set : string) (is_gs : bool)
    (nums_average : nat) (s : MainState) :
  exists res s',
    main_res E dataset_name model_name feat_set is_gs nums_average s
    = (Ok res, s') /\
    let p := main_progress E dataset_name model_name feat_set is_gs
                           nums_average s in
    List.length (res_aucs res) = reached 3 p /\
    List.length (res_test_times res) = reached 3 p /\
    List.length (res_model_spaces res) = reached 1 p /\
    List.length (res_test_spaces res) = reached 2 p /\
    (reached 3 p <= reached 2 p)%nat /\
    (reached 2 p <= reached 1 p)%nat /\
    (reached 1 p <= 5)%nat.
Proof.
  destruct (main_res_effect dataset_name model_name feat_set is_gs
              nums_average s)
    as (res & s' & Hrun & Hlen & HA & HT & HM & HS & _).
  exists res, s'. split; [exact Hrun|]. cbn zeta in *.
  split; [exact HA|]. split; [exact HT|]. split; [exact HM|].
  split; [exact HS|].
  split; [apply reached_mono; lia|]. split; [apply reached_mono; lia|].
  pose proof (reached_le_length 1
                (main_progress E dataset_name model_name feat_set is_gs
                               nums_average s)) as Hle.
  rewrite Hlen in Hle. exact Hle.
Qed.

(** C3. The loop of [main] makes five repeats and an exception raised in
    the body of one of them never leaves it: [main] reaches [res] in every
    case; the five repeats 0..4 are all announced in the log, in order,
    whichever of them failed; each failed repeat has its traceback printed
    and its "Error:" line logged (and these are the exception the body
    raised); [aucs] and [test_times] have five entries less one for each
    failed repeat, so exactly four when exactly one repeat failed. *)
Theorem main_survives_failed_repeats
    (dataset_name model_name feat_set : string) (is_gs : bool)
    (nums_average : nat) (s : MainState) :
  exists res s',
    main_res E dataset_name model_name feat_set is_gs nums_average s
    = (Ok res, s') /\
    let p := main_progress E dataset_name model_name feat_set is_gs
                           nums_average s in
    repeats_logged (log (env s'))
    = repeats_logged (log (env s)) ++ [0; 1; 2; 3; 4]%nat /\
    List.length (tracebacks (log (env s')))
    = (List.length (tracebacks (log (env s))) + failures p)%nat /\
    List.length (error_lines (log (env s')))
    = (List.length (error_lines (log (env s))) + failures p)%nat /\
    (List.length (res_aucs res) + failures p = 5)%nat /\
    (List.length (res_test_times res) + failures p = 5)%nat /\
    (failures p = 1%nat ->
     List.length (res_aucs res) = 4%nat /\
     List.length (res_test_times res) = 4%nat) /\
    (forall in_dir unit_ i s0 x s1,
       repeat_body E model_name in_dir unit_ nums_average i
                   (body_start i s0) = (Raise x, s1) ->
       exists s2 new,
         repeat_step E dataset_name model_name in_dir unit_ nums_average i s0
         = (Ok (), s2) /\
         aucs (vars s2) = aucs (vars s0) /\
         test_times (vars s2) = test_times (vars s0) /\
         log (env s2)
         = log (env s0) ++ InfoRepeat i :: new
             ++ [PrintExc x; LogError dataset_name model_name]).
Proof.
  destruct (main_res_effect dataset_name model_name feat_set is_gs
              nums_average s)
    as (res & s' & Hrun & Hlen & HA & HT & HM & HS & HR & HTb & HE).
  exists res, s'. split; [exact Hrun|]. cbn zeta in *.
  pose proof (reached_failures
                (main_progress E dataset_name model_name feat_set is_gs
                               nums_average s)) as Hsum.
  rewrite Hlen in Hsum. unfold n_repeats in Hsum.
  split; [exact HR|]. split; [exact HTb|]. split; [exact HE|].
  split; [lia|]. split; [lia|]. split; [intros; lia|].
  intros in_dir unit_ i s0 x s1 Hbody.
  destruct (repeat_step_effect dataset_name model_name in_dir unit_
              nums_average i s0)
    as (s2 & au & tt & ms & ts & new & Hstep & Hl & Hau & Htt & _ & _ & _
        & _ & _ & Hraise).
  destruct (Hraise x s1 Hbody) as (new' & _ & ->).
  pose proof (repeat_body_effect model_name in_dir unit_ nums_average
                _ _ _ _ Hbody)
    as (au' & tt' & _ & _ & _ & _ & _ & Hau' & _ & _ & _ & Hok).
  cbn [is_ok] in Hok. rewrite <- Hok in Hau, Htt. cbn [Nat.b2n] in Hau, Htt.
  destruct au; [|discriminate]. destruct tt; [|discriminate].
  unfold lists_and_log in Hl. rewrite !app_nil_r in Hl.
  injection Hl as HA' HT' _ _ HL.
  exists s2, new'. auto.
Qed.

End Facts.

(** ** The theorems at work in the small world *)

Module DemoFacts.

Import Demo.

Lemma one_neq_zero : of_Z 1 <> zero.
Proof.
  intros H. injection H as H. discriminate H.
Qed.

(** A tag no branch recognises: an isolation forest. *)
Lemma unsupported_tag_raises_witness :
  evaluate_model E0 (<["model_name" := PStr "IF(100)"]> detector_params)
                 projection_params X_demo y_demo default_nums true e0
  = (Raise NotImplementedError, e0).
Proof.
  apply (unsupported_tag_raises E0
           (<["model_name" := PStr "IF(100)"]> detector_params)
           projection_params "IF(100)" X_demo y_demo default_nums true e0);
    vm_compute; reflexivity.
Defined.

(** A KJL projection in front of a one-class SVM. *)
Lemma recreate_copies_fields_witness :
  exists project params model,
    recreate E0 (<["model_name" := PStr "KJL-OCSVM(rbf)"]> detector_params)
             projection_params
    = Ok ("KJL-OCSVM(rbf)", project, params, model) /\
    (exists p, project = Some p /\ attrs p !! "U" = Some (PData 13%Z)) /\
    attrs model !! "gamma" = Some (PData 2%Z) /\
    attrs model !! "kernel" = Some (PStr "rbf") /\
    attrs model !! "nu" = Some (PData 0%Z).
Proof.
  destruct (recreate_copies_fields E0
              (<["model_name" := PStr "KJL-OCSVM(rbf)"]> detector_params)
              projection_params "KJL-OCSVM(rbf)" OCSVM)
    as (project & params & model & Hrec & Hproj & _ & Hmodel & _).
  - vm_compute. reflexivity.
  - vm_compute. reflexivity.
  - repeat constructor; eexists; vm_compute; reflexivity.
  - repeat constructor; eexists; vm_compute; reflexivity.
  - exists project, params, model. split; [exact Hrec|].
    destruct Hproj as (p & -> & _ & Hp & _).
    destruct Hmodel as (_ & Hm & Hrest).
    split.
    { exists p. split; [reflexivity|].
      destruct (Hp "U" "U") as [_ HU]; [in_list|].
      etransitivity; [exact HU|vm_compute; reflexivity]. }
    split.
    { destruct (Hm "gamma" "_gamma") as [_ HG]; [in_list|].
      etransitivity; [exact HG|vm_compute; reflexivity]. }
    split.
    { destruct (Hm "kernel" "kernel") as [_ HK]; [in_list|].
      etransitivity; [exact HK|vm_compute; reflexivity]. }
    etransitivity; [apply Hrest|vm_compute; reflexivity].
    intros Hin. simpl in Hin. list_cases Hin; discriminate.
Defined.

(** The detector mapping without its support vectors. *)
Lemma missing_field_raises_KeyError_witness :
  exists k',
    ((k' ∈ required_keys (projection_class "OCSVM(rbf)") /\
      (∅ : gmap string (pyval value)) !! k' = None) \/
     (k' ∈ required_keys (detector_class "OCSVM(rbf)") /\
      (<["model_name" := PStr "OCSVM(rbf)"]>
         (delete "support_vectors_" detector_params)) !! k' = None)) /\
    evaluate_model E0
      (<["model_name" := PStr "OCSVM(rbf)"]>
         (delete "support_vectors_" detector_params))
      ∅ X_demo y_demo default_nums true e0
    = (Raise (KeyError k'), e0).
Proof.
  apply (missing_field_raises_KeyError E0
           (<["model_name" := PStr "OCSVM(rbf)"]>
              (delete "support_vectors_" detector_params))
           ∅ "OCSVM(rbf)" "support_vectors_" X_demo y_demo default_nums
           true e0).
  - vm_compute. reflexivity.
  - right. split; [simpl; in_list|vm_compute; reflexivity].
Defined.

(** One run of [_test] without projection: the profiler reports 1 tick
    for the empty projection block and 3 for the scoring. *)
Lemma test_time_is_sum_of_stage_times_witness :
  exists auc,
    _test E0 (new E0 OCSVM) X_demo y_demo no_projection None e0
    = (Ok (auc, (zero + of_Z 1 + zero + of_Z 3)%num),
       {| world := {| clock := 4; started := 1 |};
          log := [InfoTestTime (zero + of_Z 1 + zero + of_Z 3)%num
                               zero zero (of_Z 1) (of_Z 3)] |}).
Proof.
  eexists.
  refine (proj1 (test_time_is_sum_of_stage_times E0 (new E0 OCSVM) X_demo
                   y_demo no_projection None
                   w0 {| clock := 0; started := 0 |}
                   {| clock := 0; started := 0 |}
                   {| clock := 1; started := 0 |}
                   {| clock := 1; started := 1 |}
                   {| clock := 3; started := 1 |}
                   {| clock := 4; started := 1 |}
                   [] X_demo (of_Z 1) (of_Z 3) X_demo _ _
                   _ _ _ _ _ _ _)); reflexivity.
Defined.

(** The projection stage of that run is not zero. *)
Lemma projection_time_without_projection_not_zero :
  flag_set no_projection "is_kjl" = false /\
  flag_set no_projection "is_nystrom" = false /\
  exists auc total pred e',
    _test E0 (new E0 OCSVM) X_demo y_demo no_projection None e0
    = (Ok (auc, total), e') /\
    log e' = [InfoTestTime total zero zero (of_Z 1) pred] /\
    of_Z 1 <> zero.
Proof.
  split; [reflexivity|]. split; [reflexivity|].
  eexists _, _, _, _.
  split; [|split; [|exact one_neq_zero]].
  - refine (_test_run E0 (new E0 OCSVM) X_demo y_demo no_projection None
              w0 {| clock := 0; started := 0 |}
              {| clock := 0; started := 0 |}
              {| clock := 1; started := 0 |}
              {| clock := 1; started := 1 |}
              {| clock := 3; started := 1 |}
              {| clock := 4; started := 1 |}
              [] X_demo (of_Z 1) (of_Z 3) X_demo _ _
              _ _ _ _ _ _ _); reflexivity.
  - reflexivity.
Qed.


(** The scores of the four points rank both negatives above both
    positives. *)
Lemma test_auc_is_area_under_roc_witness :
  (exists t e',
     _test E0 (new E0 OCSVM) X_demo y_demo no_projection None e0
     = (Ok (zero, t), e')) /\
  Roc.roc_auc [0; 0; 1; 1]%Z
    [Finite (qc 1 10); Finite (qc 2 10); Finite (qc (-1) 10);
     Finite (qc (-2) 10)]
  = Ok zero.
Proof.
  edestruct (test_auc_is_area_under_roc E0 (new E0 OCSVM) X_demo
               y_demo no_projection None
               w0 {| clock := 0; started := 0 |}
               {| clock := 0; started := 0 |}
               {| clock := 1; started := 0 |}
               {| clock := 1; started := 1 |}
               {| clock := 3; started := 1 |}
               {| clock := 4; started := 1 |}
               [] X_demo (of_Z 1) (of_Z 3) X_demo)
    as ((t & e' & Hrun) & _ & Hex); try reflexivity.
  split; [|exact Hex].
  exists t, e'. etransitivity; [exact Hrun|].
  repeat (first [reflexivity | apply Finite_ext; reflexivity | f_equal]).
Defined.

(** Files of 1500 and 2500 bytes: 4 KB. *)
Lemma format_unit_scales_and_model_space_sums_witness :
  format_unit (of_Z 4000) "KB" = (of_Z 4000 / _1e3)%num /\
  get_model_space E0 "repeat_0.model.model_params"
                  "repeat_0.model.project_params" "KB" w0
  = (Ok (of_Z (1500 + 2500) / _1e3)%num, w0).
Proof.
  destruct (format_unit_scales_and_model_space_sums E0 (of_Z 4000) 0%Qc
              "repeat_0.model.model_params" "repeat_0.model.project_params"
              "KB" 1500 2500 w0 w0 w0)
    as (HK & _ & _ & _ & _ & Hspace); try reflexivity.
  split; [exact HK|exact Hspace].
Defined.

Lemma format_unit_unknown_unit_witness :
  format_unit (of_Z 4000) "GB" = of_Z 4000.
Proof. apply format_unit_unknown_unit; discriminate. Defined.

(** Five repeats of 'OCSVM(rbf)' with the detector mapping of repeat 2
    damaged: the four other repeats are evaluated. *)
Lemma main_survives_failed_repeats_witness :
  exists res s',
    main_res E2 "CTU1" "OCSVM(rbf)" "iat_size" true default_nums s0
    = (Ok res, s') /\
    repeats_logged (log (env s')) = [0; 1; 2; 3; 4]%nat /\
    List.length (tracebacks (log (env s'))) = 1%nat /\
    List.length (res_aucs res) = 4%nat /\
    List.length (res_test_times res) = 4%nat.
Proof.
  destruct (main_survives_failed_repeats E2 "CTU1" "OCSVM(rbf)" "iat_size"
              true default_nums s0)
    as (res & s' & Hrun & Hrep & Htb & _ & _ & _ & Hone & _).
  exists res, s'. split; [exact Hrun|]. split; [exact Hrep|].
  assert (Hf : failures (main_progress E2 "CTU1" "OCSVM(rbf)" "iat_size"
                           true default_nums s0) = 1%nat)
    by (vm_compute; reflexivity).
  cbn zeta in *. rewrite Hf in Htb. split; [exact Htb|].
  exact (Hone Hf).
Defined.

(** In that run four repeats complete, and [model_spaces] and
    [test_spaces] have five entries: the failed repeat is in them. *)
Lemma model_spaces_count_failed_repeat :
  exists res s',
    main_res E2 "CTU1" "OCSVM(rbf)" "iat_size" true default_nums s0
    = (Ok res, s') /\
    reached 3 (main_progress E2 "CTU1" "OCSVM(rbf)" "iat_size" true
                             default_nums s0) = 4%nat /\
    List.length (res_aucs res) = 4%nat /\
    List.length (res_model_spaces res) = 5%nat /\
    List.length (res_test_spaces res) = 5%nat /\
    List.length (res_model_spaces res)
    <> reached 3 (main_progress E2 "CTU1" "OCSVM(rbf)" "iat_size" true
                                default_nums s0).
Proof.
  destruct (main_res_effect E2 "CTU1" "OCSVM(rbf)" "iat_size" true
              default_nums s0)
    as (res & s' & Hrun & _ & HA & _ & HM & HS & _).
  cbn zeta in *.
  assert (Hp : main_progress E2 "CTU1" "OCSVM(rbf)" "iat_size" true
                             default_nums s0 = [3; 3; 2; 3; 3]%nat)
    by (vm_compute; reflexivity).
  rewrite Hp in *.
  exists res, s'. split; [exact Hrun|].
  split; [reflexivity|]. split; [exact HA|]. split; [exact HM|].
  split; [exact HS|]. rewrite HM. vm_compute. discriminate.
Qed.

End DemoFacts.

(** * Further properties of the code *)

(** ** Substrings *)

Lemma append_cons (c : ascii) (s t : string) :
  String c s +:+ t = String c (s +:+ t).
Proof. reflexivity. Qed.

Lemma append_nil_l (s : string) : "" +:+ s = s.
Proof. reflexivity. Qed.

Lemma append_nil_r (s : string) : s +:+ "" = s.
Proof.
  induction s as [|c s IH]; [reflexivity|].
  rewrite append_cons, IH. reflexivity.
Qed.

Lemma append_assoc (s t u : string) : (s +:+ t) +:+ u = s +:+ t +:+ u.
Proof.
  induction s as [|c s IH]; [reflexivity|].
  rewrite !append_cons, IH. reflexivity.
Qed.

Lemma length_append (s t : string) :
  String.length (s +:+ t) = (String.length s + String.length t)%nat.
Proof.
  induction s as [|c s IH]; [reflexivity|].
  rewrite append_cons. simpl. rewrite IH. reflexivity.
Qed.

(** [s.startswith(sub)]. *)
Lemma prefix_iff (sub s : string) :
  String.prefix sub s = true <-> exists b, s = sub +:+ b.
Proof.
  revert s. induction sub as [|c sub IH]; intros s.
  - split; [intros _; exists s; reflexivity|].
    intros _. destruct s; reflexivity.
  - destruct s as [|d s].
    + simpl. split; [discriminate|]. intros [b Hb].
      rewrite append_cons in Hb. discriminate.
    + simpl. destruct (ascii_dec c d) as [->|Hne].
      * rewrite IH. split; intros [b Hb]; exists b.
        -- rewrite append_cons, Hb. reflexivity.
        -- rewrite append_cons in Hb. injection Hb as Hb. exact Hb.
      * split; [discriminate|]. intros [b Hb].
        rewrite append_cons in Hb. injection Hb as Hc _. congruence.
Qed.

Lemma str_in_nil (sub : string) :
  str_in sub "" = if String.prefix sub "" then true else false.
Proof. reflexivity. Qed.

Lemma str_in_cons (sub : string) (c : ascii) (s : string) :
  str_in sub (String c s)
  = if String.prefix sub (String c s) then true else str_in sub s.
Proof. reflexivity. Qed.

(** Python's [sub in s] holds exactly when [s] is [a + sub + b] for some
    [a] and [b]. *)
Lemma str_in_iff (sub s : string) :
  str_in sub s = true <-> exists a b, s = a +:+ sub +:+ b.
Proof.
  split.
  - induction s as [|c s IH]; [rewrite str_in_nil|rewrite str_in_cons].
    + destruct (String.prefix sub "") eqn:Hp; [|discriminate].
      intros _. apply prefix_iff in Hp as [b Hb]. exists "", b. exact Hb.
    + destruct (String.prefix sub (String c s)) eqn:Hp.
      * intros _. apply prefix_iff in Hp as [b Hb]. exists "", b. exact Hb.
      * intros H. destruct (IH H) as (a & b & ->).
        exists (String c a), b. reflexivity.
  - intros (a & b & ->). induction a as [|c a IH].
    + rewrite append_nil_l.
      assert (Hp : String.prefix sub (sub +:+ b) = true)
        by (apply prefix_iff; eauto).
      destruct (sub +:+ b);
        [rewrite str_in_nil|rewrite str_in_cons]; rewrite Hp; reflexivity.
    + rewrite append_cons, str_in_cons.
      destruct (String.prefix sub (String c (a +:+ sub +:+ b)));
        [reflexivity|exact IH].
Qed.

Lemma str_in_false_iff (sub s : string) :
  str_in sub s = false <-> ~ exists a b, s = a +:+ sub +:+ b.
Proof.
  rewrite <- str_in_iff. destruct (str_in sub s); split; congruence.
Qed.

Section MoreFacts.

Context {value ndarray World : Type}.
Variable E : Externals value ndarray World.

Local Abbreviation pyval := (pyval value).
Local Abbreviation pyobject := (pyobject value).
Local Abbreviation Env := (@Env World).
Local Abbreviation MainState := (@MainState World).

(** ** Reconstruction, read backwards *)

Lemma present_or_missing (d : gmap string pyval) (l : list string) :
  Forall (fun k => is_Some (d !! k)) l \/ exists k, k ∈ l /\ d !! k = None.
Proof.
  induction l as [|k l [IH|(k' & Hin & Hk')]].
  - left. constructor.
  - destruct (d !! k) as [v|] eqn:Hk.
    + left. constructor; [rewrite Hk; eauto|exact IH].
    + right. exists k. split; [apply list_elem_of_here|exact Hk].
  - right. exists k'. split; [apply list_elem_of_further; exact Hin|exact Hk'].
Qed.

Lemma recreate_inv (mp pp : gmap string pyval) tag project params model :
  recreate E mp pp = Ok (tag, project, params, model) ->
  mp !! "model_name" = Some (PStr tag) /\
  recreate_project E tag pp = Ok (project, params) /\
  recreate_model E tag mp = Ok model.
Proof.
  unfold recreate, getitem.
  destruct (mp !! "model_name") as [[s|v]|]; simpl; try discriminate.
  destruct (recreate_project E s pp) as [[p f]|x] eqn:Hp; simpl;
    try discriminate.
  destruct (recreate_model E s mp) as [m|x] eqn:Hm; simpl; try discriminate.
  intros H. inversion H; subst. auto.
Qed.

Lemma recreate_project_inv (tag : string) (pp : gmap string pyval)
    project params :
  recreate_project E tag pp = Ok (project, params) ->
  flags_of (projection_class tag) params /\
  match projection_class tag with
  | Some c => exists p, project = Some p /\ rebuilt_from E p c pp
  | None => project = None
  end.
Proof.
  intros H.
  destruct (present_or_missing pp (required_keys (projection_class tag)))
    as [Hall|(k & Hin & Hk)].
  - rewrite Forall_forall in Hall.
    destruct (recreate_project_ok E tag pp Hall) as (p' & f' & H' & Hf & Hp).
    rewrite H in H'. inversion H'; subst. auto.
  - destruct (recreate_project_missing E tag pp k Hin Hk) as (k' & _ & _ & H').
    congruence.
Qed.

Lemma recreate_model_inv (tag : string) (mp : gmap string pyval) model :
  recreate_model E tag mp = Ok model ->
  exists c, detector_class tag = Some c /\ rebuilt_from E model c mp.
Proof.
  intros H. destruct (detector_class tag) as [c|] eqn:Hc.
  - exists c. split; [reflexivity|].
    destruct (present_or_missing mp (required_keys (detector_class tag)))
      as [Hall|(k & Hin & Hk)].
    + rewrite Forall_forall in Hall.
      destruct (recreate_model_ok E tag mp c Hc Hall) as (m' & H' & Hm).
      congruence.
    + destruct (recreate_model_missing E tag mp k Hin Hk) as (k' & _ & _ & H').
      congruence.
  - rewrite (recreate_model_unsupported E tag mp Hc) in H. discriminate.
Qed.

Lemma str_in_occurs (sub s : string) : str_in sub s = true <-> occurs_in sub s.
Proof. apply str_in_iff. Qed.

Lemma str_in_not_occurs (sub s : string) :
  str_in sub s = false <-> ~ occurs_in sub s.
Proof. apply str_in_false_iff. Qed.

(** The classes of the reconstructed objects are decided by which of the
    four substrings occur in the tag, exactly and case-sensitively: the
    detector is an OCSVM when 'OCSVM' occurs, a GMM when 'GMM' occurs and
    'OCSVM' does not; the projection is a KJL when 'KJL' occurs, a NYSTROM
    when 'Nystrom' occurs and 'KJL' does not, and [None] when neither
    occurs. What surrounds the substring is irrelevant. *)
Theorem recreate_selects_by_substring
    (mp pp : gmap string pyval) (tag : string) (project : option pyobject)
    (params : gmap string bool) (model : pyobject) :
  recreate E mp pp = Ok (tag, project, params, model) ->
  (class_of model = OCSVM <-> occurs_in "OCSVM" tag) /\
  (class_of model = GMM <->
     occurs_in "GMM" tag /\ ~ occurs_in "OCSVM" tag) /\
  ((exists p, project = Some p /\ class_of p = KJL) <->
     occurs_in "KJL" tag) /\
  ((exists p, project = Some p /\ class_of p = NYSTROM) <->
     occurs_in "Nystrom" tag /\ ~ occurs_in "KJL" tag) /\
  (project = None <->
     ~ occurs_in "KJL" tag /\ ~ occurs_in "Nystrom" tag).
Proof.
  intros H. apply recreate_inv in H as (_ & Hp & Hm).
  apply recreate_project_inv in Hp as (_ & Hp).
  apply recreate_model_inv in Hm as (c & Hc & Hcl & _).
  unfold detector_class in Hc. unfold projection_class in Hp.
  rewrite <- !str_in_not_occurs, <- !str_in_occurs.
  split; [|split; [|split; [|split]]].
  - destruct (str_in "OCSVM" tag); [|destruct (str_in "GMM" tag)];
      try discriminate; injection Hc as Hc; rewrite Hcl, <- Hc;
      split; congruence.
  - destruct (str_in "OCSVM" tag); [|destruct (str_in "GMM" tag)];
      try discriminate; injection Hc as Hc; rewrite Hcl, <- Hc;
      split; intuition congruence.
  - destruct (str_in "KJL" tag); [|destruct (str_in "Nystrom" tag)].
    + destruct Hp as (p & -> & Hcp & _). split; [reflexivity|]. eauto.
    + destruct Hp as (p & -> & Hcp & _).
      split; [|discriminate]. intros (p' & Hp' & Hk). congruence.
    + subst. split; [|discriminate]. intros (p' & Hp' & _). discriminate.
  - destruct (str_in "KJL" tag); [|destruct (str_in "Nystrom" tag)].
    + destruct Hp as (p & -> & Hcp & _).
      split; [|intros [_ ?]; discriminate].
      intros (p' & Hp' & Hk). congruence.
    + destruct Hp as (p & -> & Hcp & _). split; [auto|]. eauto.
    + subst. split; [|intros [? _]; discriminate].
      intros (p' & Hp' & _). discriminate.
  - destruct (str_in "KJL" tag); [|destruct (str_in "Nystrom" tag)].
    + destruct Hp as (p & -> & _). split; [discriminate|].
      intros [? _]; discriminate.
    + destruct Hp as (p & -> & _). split; [discriminate|].
      intros [_ ?]; discriminate.
    + subst. split; auto.
Qed.

(** The stage flags and the projection object agree: a flag is set
    exactly when there is a projection of that class, never both flags,
    and no flag without a projection. So the projection block of [_test],
    run on reconstructed values, is the call of [transform] when there is a
    projection and does nothing otherwise: [transform] is never looked up
    on [None]. *)
Theorem recreate_flags_match_projection
    (mp pp : gmap string pyval) (tag : string) (project : option pyobject)
    (params : gmap string bool) (model : pyobject) :
  recreate E mp pp = Ok (tag, project, params, model) ->
  (flag_set params "is_kjl" = true <->
     exists p, project = Some p /\ class_of p = KJL) /\
  (flag_set params "is_nystrom" = true <->
     exists p, project = Some p /\ class_of p = NYSTROM) /\
  ~ (flag_set params "is_kjl" = true /\ flag_set params "is_nystrom" = true) /\
  forall (X : ndarray) (w : World),
    projection_block E params project X w
    = match project with
      | Some p => transform E p X w
      | None => (Ok X, w)
      end.
Proof.
  intros H. apply recreate_inv in H as (_ & Hp & _).
  apply recreate_project_inv in Hp as ([Hk Hn] & Hp).
  unfold projection_block, flag_set. rewrite Hk, Hn.
  unfold projection_class in *.
  destruct (str_in "KJL" tag); [|destruct (str_in "Nystrom" tag)].
  - destruct Hp as (p & -> & Hc & _). simpl.
    split; [split; eauto|].
    split; [split; [discriminate|intros (p' & Hp' & Hc'); congruence]|].
    split; [intros [_ ?]; discriminate|reflexivity].
  - destruct Hp as (p & -> & Hc & _). simpl.
    split; [split; [discriminate|intros (p' & Hp' & Hc'); congruence]|].
    split; [split; eauto|].
    split; [intros [? _]; discriminate|reflexivity].
  - subst. simpl.
    split; [split; [discriminate|intros (p' & Hp' & _); discriminate]|].
    split; [split; [discriminate|intros (p' & Hp' & _); discriminate]|].
    split; [intros [? _]; discriminate|reflexivity].
Qed.


Lemma getitem_agree {V} (d d' : gmap string V) (k : string) :
  d !! k = d' !! k -> getitem d k = getitem d' k.
Proof. intros H. unfold getitem. rewrite H. reflexivity. Qed.

Ltac agree_on H k :=
  rewrite (getitem_agree _ _ k (H k ltac:(simpl; in_list))).

(** Only the tag and the keys of the selected classes are read: two
    pairs of mappings with the same tag that agree on the keys of the
    projection class and on the keys of the detector class are
    reconstructed into the same objects, or fail alike, and
    [evaluate_model] cannot tell them apart. Any other key, the keys of the
    classes not selected included, is ignored. *)
Theorem recreate_reads_only_required_keys
    (mp mp' pp pp' : gmap string pyval) (tag : string) :
  mp !! "model_name" = Some (PStr tag) ->
  mp' !! "model_name" = Some (PStr tag) ->
  (forall k, k ∈ required_keys (projection_class tag) -> pp !! k = pp' !! k) ->
  (forall k, k ∈ required_keys (detector_class tag) -> mp !! k = mp' !! k) ->
  recreate E mp pp = recreate E mp' pp' /\
  forall (X : ndarray) (y : list Z) (nums : nat) (is_average : bool),
    evaluate_model E mp pp X y nums is_average
    = evaluate_model E mp' pp' X y nums is_average.
Proof.
  intros Ht Ht' Hpp Hmp.
  assert (Hr : recreate E mp pp = recreate E mp' pp').
  { rewrite (recreate_tag E _ _ _ Ht), (recreate_tag E _ _ _ Ht').
    assert (Hp : recreate_project E tag pp = recreate_project E tag pp').
    { unfold recreate_project, projection_class in *.
      destruct (str_in "KJL" tag); [|destruct (str_in "Nystrom" tag)].
      - agree_on Hpp "sigma". agree_on Hpp "Xrow". agree_on Hpp "U".
        reflexivity.
      - agree_on Hpp "sigma". agree_on Hpp "Xrow".
        agree_on Hpp "eigvec_lambda". reflexivity.
      - reflexivity. }
    assert (Hm : recreate_model E tag mp = recreate_model E tag mp').
    { unfold recreate_model, detector_class in *.
      destruct (str_in "OCSVM" tag); [|destruct (str_in "GMM" tag)].
      - agree_on Hmp "kernel". agree_on Hmp "_gamma".
        agree_on Hmp "support_vectors_". agree_on Hmp "_dual_coef_".
        agree_on Hmp "_intercept_". reflexivity.
      - agree_on Hmp "covariance_type". agree_on Hmp "weights_".
        agree_on Hmp "means_". agree_on Hmp "precisions_cholesky_".
        reflexivity.
      - reflexivity. }
    rewrite Hp, Hm. reflexivity. }
  split; [exact Hr|].
  intros X y nums is_average. unfold evaluate_model. rewrite Hr. reflexivity.
Qed.

(** A tag without 'OCSVM' and without 'GMM' never gets a model, with or
    without a recognised projection. The projection is still rebuilt first:
    a missing projection key is reported as [KeyError], and only when the
    projection mapping is complete is [NotImplementedError] raised. Either
    way nothing has been run. *)
Theorem no_detector_never_returns
    (mp pp : gmap string pyval) (tag : string) (X : ndarray) (y : list Z)
    (nums : nat) (is_average : bool) (e : Env) :
  mp !! "model_name" = Some (PStr tag) ->
  str_in "OCSVM" tag = false ->
  str_in "GMM" tag = false ->
  (exists k, k ∈ required_keys (projection_class tag) /\ pp !! k = None /\
     evaluate_model E mp pp X y nums is_average e = (Raise (KeyError k), e)) \/
  (Forall (fun k => is_Some (pp !! k)) (required_keys (projection_class tag)) /\
   evaluate_model E mp pp X y nums is_average e
   = (Raise NotImplementedError, e)).
Proof.
  intros Ht HO HG.
  destruct (present_or_missing pp (required_keys (projection_class tag)))
    as [Hall|(k & Hin & Hk)].
  - right. split; [exact Hall|].
    rewrite Forall_forall in Hall.
    destruct (recreate_project_ok E tag pp Hall) as (p & f & Hp & _).
    apply evaluate_model_recreate_raise.
    rewrite (recreate_tag E _ _ _ Ht), Hp. simpl.
    rewrite recreate_model_unsupported; [reflexivity|].
    unfold detector_class. rewrite HO, HG. reflexivity.
  - left. destruct (recreate_project_missing E tag pp k Hin Hk)
      as (k' & Hin' & Hk' & Hr).
    exists k'. split; [exact Hin'|]. split; [exact Hk'|].
    apply evaluate_model_recreate_raise.
    rewrite (recreate_tag E _ _ _ Ht), Hr. reflexivity.
Qed.

(** ** More on evaluate_model *)

Lemma trials_app {S A} (k m : nat) (c : M S A) (s : S) :
  trials (k + m) c s
  = match trials k c s with
    | (Ok rs, s1) =>
        match trials m c s1 with
        | (Ok rs', s2) => (Ok (rs ++ rs'), s2)
        | (Raise x, s2) => (Raise x, s2)
        end
    | (Raise x, s1) => (Raise x, s1)
    end.
Proof.
  revert s. induction k as [|k IH]; intros s.
  - simpl. unfold ret. destruct (trials m c s) as [[rs'|x] s2]; reflexivity.
  - simpl. unfold bind. destruct (c s) as [[a|x] s1]; [|reflexivity].
    rewrite IH. destruct (trials k c s1) as [[rs|x] s2]; [|reflexivity].
    unfold ret. simpl.
    destruct (trials m c s2) as [[rs'|x] s3]; reflexivity.
Qed.

(** The loop of [evaluate_model] has no handler: when the first [k] runs
    return and the next one raises, with [k] < [nums], the call raises that
    exception at once. The [nums - k - 1] remaining runs do not take
    place, no mean is returned, and the log holds the [k] lines of the runs
    that returned. *)
Theorem evaluate_model_stops_at_first_failure
    (mp pp : gmap string pyval) (X : ndarray) (y : list Z) (nums k : nat)
    (tag : string) (project : option pyobject)
    (params : gmap string bool) (model : pyobject)
    (e e1 e2 : Env) (rs : list (num * num)) (x : exn) :
  recreate E mp pp = Ok (tag, project, params, model) ->
  (k < nums)%nat ->
  trials k (_test E model X y params project) e = (Ok rs, e1) ->
  _test E model X y params project e1 = (Raise x, e2) ->
  evaluate_model E mp pp X y nums true e = (Raise x, e2) /\
  List.length (test_time_lines (log e2))
  = (List.length (test_time_lines (log e)) + k)%nat.
Proof.
  intros Hrec Hk Hrs Hx. split.
  - rewrite (evaluate_model_recreate_ok E _ _ _ _ _ _ _ _ _ _ _ Hrec).
    unfold bind. rewrite trial_loop_trials.
    replace nums with (k + S (nums - S k))%nat by lia.
    rewrite trials_app, Hrs, (trials_raise_first _ _ _ _ _ Hx). reflexivity.
  - rewrite <- (trials_test_lines E _ _ _ _ _ _ _ _ _ Hrs).
    apply (_test_log E) in Hx. simpl in Hx. rewrite Hx. reflexivity.
Qed.

(** With [nums] = 0 the averaged call runs nothing after the
    reconstruction and returns the means of two empty lists, NaN and NaN. *)
Theorem evaluate_model_zero_trials
    (mp pp : gmap string pyval) (X : ndarray) (y : list Z)
    (tag : string) (project : option pyobject)
    (params : gmap string bool) (model : pyobject) (e : Env) :
  recreate E mp pp = Ok (tag, project, params, model) ->
  evaluate_model E mp pp X y 0 true e = (Ok (NaN, NaN), e).
Proof.
  intros Hrec.
  rewrite (evaluate_model_recreate_ok E _ _ _ _ _ _ _ _ _ _ _ Hrec).
  reflexivity.
Qed.

Lemma mean_singleton (x : num) : mean [x] = x.
Proof.
  apply mean_const; [discriminate|].
  intros z Hz. apply list_elem_of_singleton in Hz. exact Hz.
Qed.

(** Averaging over one run changes nothing: with [nums] = 1 the averaged
    call and the single-shot call return the same pair, raise the same
    exception and leave the same environment. *)
Theorem evaluate_model_one_trial_is_single_shot
    (mp pp : gmap string pyval) (X : ndarray) (y : list Z) (nums : nat)
    (e : Env) :
  evaluate_model E mp pp X y 1 true e
  = evaluate_model E mp pp X y nums false e.
Proof.
  destruct (recreate E mp pp) as [[[[tag project] params] model]|x] eqn:Hrec.
  - rewrite !(evaluate_model_recreate_ok E _ _ _ _ _ _ _ _ _ _ _ Hrec).
    unfold bind. rewrite trial_loop_trials. simpl. unfold bind.
    destruct (_test E model X y params project e) as [[[a t]|x] e1];
      [|reflexivity].
    unfold ret. simpl. rewrite !mean_singleton. reflexivity.
  - rewrite !(evaluate_model_recreate_raise E _ _ _ _ _ _ _ _ Hrec).
    reflexivity.
Qed.

(** ** More on _test *)

(** [_test] writes to the log only at its end: a call that returns has
    added exactly one "Total test time" line, which carries the total it
    returns, zero for the standardization and the seek stages, and the two
    profiler readings, whose sum is the total; a call that raises, at
    whatever point, has added nothing. *)
Theorem _test_logs_one_line_or_none
    (model : pyobject) (X : ndarray) (y : list Z)
    (params : gmap string bool) (project : option pyobject) (e : Env) :
  match _test E model X y params project e with
  | (Ok (_, t), e') =>
      exists proj pred,
        t = (proj + pred)%num /\
        log e' = log e ++ [InfoTestTime t zero zero proj pred]
  | (Raise _, e') => log e' = log e
  end.
Proof.
  destruct (_test E model X y params project e) as [[[a t]|x] e'] eqn:H.
  - unfold _test in H.
    repeat (apply bind_inv in H as [(? & ? & ? & H) | (? & ? & ?)];
            [|discriminate]).
    match goal with
    | H : (let '(_, _) := ?p in _) _ = _ |- _ => destruct p as [fpr tpr]
    end.
    apply bind_inv in H as [(? & ? & Hemit & H) | (? & ? & ?)]; [|discriminate].
    unfold ret in H. unfold emit in Hemit.
    injection H as <- <- <-. injection Hemit as _ <-.
    repeat match goal with
           | H : ext _ _ = (_, _) |- _ =>
               rewrite ext_run in H; injection H as _ <-
           | H : of_result _ _ = (_, _) |- _ =>
               unfold of_result in H; injection H as _ <-
           end.
    cbn [log]. eexists _, _. split; [|reflexivity].
    match goal with
    | |- (match ?p with Finite _ => _ | NaN => _ end + _)%num = _ =>
        destruct p as [q|]; [|reflexivity]
    end.
    f_equal. f_equal. change (Q2Qc (inject_Z 0)) with 0%Qc. ring.
  - apply (_test_log E) in H. exact H.
Qed.

(** [_test] called with a flag set and no projection object fails in the
    projection block with [AttributeError], once the profiler has been
    enabled: the detector is not called and nothing is logged. *)
Theorem _test_flag_without_projection
    (model : pyobject) (X : ndarray) (y : list Z)
    (params : gmap string bool) (w w1 : World) (l : list log_entry) :
  flag_set params "is_kjl" = true \/ flag_set params "is_nystrom" = true ->
  profile_enable E w = (Ok (), w1) ->
  _test E model X y params None {| world := w; log := l |}
  = (Raise (AttributeError "'NoneType' object has no attribute 'transform'"),
     {| world := w1; log := l |}).
Proof.
  intros Hflag Hen. unfold _test.
  rewrite (bind_ok _ _ _ _ _ (ext_ok _ _ _ l _ Hen)).
  apply bind_raise. apply ext_raise.
  unfold projection_block.
  destruct Hflag as [-> | Hn]; [reflexivity|].
  rewrite Hn. destruct (flag_set params "is_kjl"); reflexivity.
Qed.

(** ** More on main *)

Ltac bind_cases H :=
  apply bind_inv in H as [(? & ? & ? & H) | (? & ? & ?)].

Lemma evaluate_model_no_detector_raises
    (mp pp : gmap string pyval) (tag : string) (X : ndarray) (y : list Z)
    (nums : nat) (is_average : bool) (e : Env) :
  mp !! "model_name" = Some (PStr tag) ->
  str_in "OCSVM" tag = false ->
  str_in "GMM" tag = false ->
  exists x, evaluate_model E mp pp X y nums is_average e = (Raise x, e).
Proof.
  intros Ht HO HG.
  assert (Hm : recreate_model E tag mp = Raise NotImplementedError).
  { apply recreate_model_unsupported. unfold detector_class.
    rewrite HO, HG. reflexivity. }
  destruct (recreate_project E tag pp) as [[p f]|x] eqn:Hp.
  - exists NotImplementedError. apply evaluate_model_recreate_raise.
    rewrite (recreate_tag E _ _ _ Ht), Hp. simpl. rewrite Hm. reflexivity.
  - exists x. apply evaluate_model_recreate_raise.
    rewrite (recreate_tag E _ _ _ Ht), Hp. reflexivity.
Qed.

Section MoreLoop.

Variables (dataset_name model_name in_dir unit_ : string).
Variable nums_average : nat.

(** The tag of the mapping a repeat evaluates is the [model_name] given
    to [main], whatever the file held under 'model_name'. *)
Lemma load_stage_tag (i : nat) (s s1 : MainState) mp pp :
  load_stage E model_name in_dir unit_ i s = (Ok (mp, pp), s1) ->
  mp !! "model_name" = Some (PStr model_name).
Proof.
  unfold load_stage. intros H.
  bind_cases H; [|discriminate]. bind_cases H; [|discriminate].
  bind_cases H; [|discriminate]. bind_cases H; [|discriminate].
  unfold ret in H. injection H as <- <- <-. apply lookup_insert_eq.
Qed.

Lemma stages_done_no_detector (i : nat) (s : MainState) :
  str_in "OCSVM" model_name = false ->
  str_in "GMM" model_name = false ->
  (stages_done E model_name in_dir unit_ nums_average i s <= 2)%nat.
Proof.
  intros HO HG. unfold stages_done.
  destruct (load_stage E model_name in_dir unit_ i s)
    as [[[mp pp]|x] s1] eqn:Hl; [|lia].
  destruct (test_set_stage E in_dir unit_ s1) as [[[X y]|x] s2]; [|lia].
  apply load_stage_tag in Hl.
  destruct (evaluate_model_no_detector_raises mp pp model_name X y
              nums_average true (env s2) Hl HO HG) as [x Hx].
  unfold evaluate_stage, bind. rewrite in_env_run, Hx. simpl. lia.
Qed.

Lemma progress_no_detector (l : list nat) (s : MainState) :
  str_in "OCSVM" model_name = false ->
  str_in "GMM" model_name = false ->
  reached 3 (progress E dataset_name model_name in_dir unit_ nums_average l s)
  = 0%nat.
Proof.
  intros HO HG. revert s. induction l as [|i l IH]; intros s; [reflexivity|].
  cbn [progress]. rewrite reached_cons, IH.
  pose proof (stages_done_no_detector i (body_start i s) HO HG) as Hle.
  destruct (Nat.leb_spec 3
              (stages_done E model_name in_dir unit_ nums_average i
                           (body_start i s))); [lia|reflexivity].
Qed.

End MoreLoop.

(** When the [model_name] given to [main] contains neither 'OCSVM' nor
    'GMM', every one of the five repeats fails, whatever the files hold
    (a tag stored in a file is overwritten by [model_name]): [main] still
    reaches [res], with [aucs] and [test_times] empty and five tracebacks
    and five "Error:" lines added to the log. *)
Theorem main_without_detector_fails_every_repeat
    (dataset_name model_name feat_set : string) (is_gs : bool)
    (nums_average : nat) (s : MainState) :
  str_in "OCSVM" model_name = false ->
  str_in "GMM" model_name = false ->
  exists res s',
    main_res E dataset_name model_name feat_set is_gs nums_average s
    = (Ok res, s') /\
    res_aucs res = [] /\
    res_test_times res = [] /\
    List.length (tracebacks (log (env s')))
    = (List.length (tracebacks (log (env s))) + 5)%nat /\
    List.length (error_lines (log (env s')))
    = (List.length (error_lines (log (env s))) + 5)%nat.
Proof.
  intros HO HG.
  destruct (main_res_effect E dataset_name model_name feat_set is_gs
              nums_average s)
    as (res & s' & Hrun & Hlen & HA & HT & _ & _ & _ & HTb & HE).
  cbn zeta in *.
  pose proof (reached_failures
                (main_progress E dataset_name model_name feat_set is_gs
                               nums_average s)) as Hsum.
  assert (H0 : reached 3 (main_progress E dataset_name model_name feat_set
                                        is_gs nums_average s) = 0%nat)
    by (apply progress_no_detector; assumption).
  rewrite H0, Hlen in Hsum. unfold n_repeats in Hsum. simpl in Hsum.
  rewrite H0 in HA, HT. rewrite Hsum in HTb, HE.
  exists res, s'. split; [exact Hrun|].
  split; [apply nil_length_inv; exact HA|].
  split; [apply nil_length_inv; exact HT|]. auto.
Qed.

Lemma in_env_ext_ok {A} (c : M World A) (s : MainState) a w' :
  c (world (env s)) = (Ok a, w') ->
  in_env (ext c) s
  = (Ok a, {| env := {| world := w'; log := log (env s) |};
              vars := vars s |}).
Proof. intros H. rewrite in_env_run, ext_run, H. reflexivity. Qed.

Lemma in_env_ext_raise {A} (c : M World A) (s : MainState) x w' :
  c (world (env s)) = (Raise x, w') ->
  in_env (ext c) s
  = (Raise x, {| env := {| world := w'; log := log (env s) |};
                 vars := vars s |}).
Proof. intros H. rewrite in_env_run, ext_run, H. reflexivity. Qed.

(** The end of [main] is outside the [try]. When [dump_data] raises,
    [main] raises: [res2csv] is not called and the name of the output file
    is not logged. When [dump_data] returns and [res2csv] raises, [main]
    raises too. *)
Theorem main_write_failure_is_not_caught
    (dataset_name model_name feat_set : string) (is_gs : bool)
    (nums_average : nat) (s s1 : MainState) (res : res_record value)
    (x : exn) (w' : World) :
  main_res E dataset_name model_name feat_set is_gs nums_average s
  = (Ok res, s1) ->
  let out_file := out_file_of dataset_name model_name feat_set is_gs in
  dump_data E res out_file (world (env s1)) = (Raise x, w') \/
  (exists w1, dump_data E res out_file (world (env s1)) = (Ok (), w1) /\
              res2csv E dataset_name model_name res out_file w1
              = (Raise x, w')) ->
  main E dataset_name model_name feat_set is_gs nums_average s
  = (Raise x, {| env := {| world := w'; log := log (env s1) |};
                 vars := vars s1 |}).
Proof.
  intros Hres out_file Hw. unfold main.
  rewrite (bind_ok _ _ _ _ _ Hres). cbv beta zeta.
  change (pth_join "speedup/out/models_res"
            [sub_dir dataset_name model_name feat_set is_gs]
          +:+ "/" +:+ dataset_name +:+ "-" +:+ model_name +:+ ".dat")
    with out_file.
  destruct Hw as [Hd|(w1 & Hd & Hc)].
  - rewrite (bind_raise _ _ _ _ _ (in_env_ext_raise _ s1 _ _ Hd)).
    reflexivity.
  - rewrite (bind_ok _ _ _ _ _ (in_env_ext_ok _ s1 _ _ Hd)). cbv beta.
    rewrite (bind_raise _ _ _ _ _
               (in_env_ext_raise _
                  {| env := {| world := w1; log := log (env s1) |};
                     vars := vars s1 |} _ _ Hc)).
    reflexivity.
Qed.

(** When both writes return, [main] returns the name it built for the
    '.dat' file, [out_dir/dataset_name-model_name.dat], whatever [res2csv]
    returned, and the last line of the log is that name. *)
Theorem main_returns_out_file
    (dataset_name model_name feat_set : string) (is_gs : bool)
    (nums_average : nat) (s s1 : MainState) (res : res_record value)
    (w1 w2 : World) (csv : string) :
  main_res E dataset_name model_name feat_set is_gs nums_average s
  = (Ok res, s1) ->
  let out_file := out_file_of dataset_name model_name feat_set is_gs in
  dump_data E res out_file (world (env s1)) = (Ok (), w1) ->
  res2csv E dataset_name model_name res out_file w1 = (Ok csv, w2) ->
  main E dataset_name model_name feat_set is_gs nums_average s
  = (Ok out_file,
     {| env := {| world := w2;
                  log := log (env s1) ++ [InfoOutFile out_file] |};
        vars := vars s1 |}).
Proof.
  intros Hres out_file Hd Hc. unfold main.
  rewrite (bind_ok _ _ _ _ _ Hres). cbv beta zeta.
  change (pth_join "speedup/out/models_res"
            [sub_dir dataset_name model_name feat_set is_gs]
          +:+ "/" +:+ dataset_name +:+ "-" +:+ model_name +:+ ".dat")
    with out_file.
  rewrite (bind_ok _ _ _ _ _ (in_env_ext_ok _ s1 _ _ Hd)). cbv beta.
  rewrite (bind_ok _ _ _ _ _
             (in_env_ext_ok _
                {| env := {| world := w1; log := log (env s1) |};
                   vars := vars s1 |} _ _ Hc)).
  reflexivity.
Qed.

(** *** Footprints *)

Lemma get_model_space_value (m p unit : string) (w w' : World) (x : num) :
  get_model_space E m p unit w = (Ok x, w') -> is_footprint unit x.
Proof.
  unfold get_model_space. intros H.
  bind_cases H; [|discriminate]. bind_cases H; [|discriminate].
  unfold ret in H. injection H as <- _. eexists. reflexivity.
Qed.

Lemma get_test_set_space_value (f unit : string) (w w' : World) (x : num) :
  get_test_set_space E f unit w = (Ok x, w') -> is_footprint unit x.
Proof.
  unfold get_test_set_space. intros H.
  bind_cases H; [|discriminate].
  unfold ret in H. injection H as <- _. eexists. reflexivity.
Qed.

Lemma in_env_ext_inv {A} (c : M World A) (s s' : MainState) r :
  in_env (ext c) s = (r, s') ->
  vars s' = vars s /\ exists w', c (world (env s)) = (r, w').
Proof.
  intros H. apply in_env_inv in H as [Hv H]. split; [exact Hv|].
  rewrite ext_run in H. injection H as H _.
  exists (snd (c (world (env s)))).
  destruct (c (world (env s))); simpl in *. congruence.
Qed.

Ltac let_pair H :=
  match type of H with
  | (let '(_, _) := ?p in _) _ = _ => destruct p
  end.

Section Footprints.

Variables (dataset_name model_name in_dir unit_ : string).
Variable nums_average : nat.

Lemma load_stage_footprints (i : nat) (s s1 : MainState) r :
  footprints_in unit_ s ->
  load_stage E model_name in_dir unit_ i s = (r, s1) ->
  footprints_in unit_ s1.
Proof.
  unfold load_stage, footprints_in. intros [HM HT] H.
  bind_cases H; [bind_cases H; [bind_cases H; [bind_cases H|]|]|].
  all: repeat match goal with
         | H : in_env (ext _) _ = (_, _) |- _ =>
             apply in_env_ext_inv in H as [? [? ?]]
         | H : model_spaces_append _ _ = (_, _) |- _ =>
             unfold model_spaces_append in H; apply update_run in H as [? ->]
         | H : ret _ _ = (_, _) |- _ => unfold ret in H; injection H as ? ?
         end; subst; simpl;
       repeat match goal with H : vars _ = vars _ |- _ => rewrite H end;
       try (split; assumption); try discriminate.
  split; [|assumption]. apply Forall_app. split; [assumption|].
  constructor; [|constructor].
  eapply get_model_space_value. eassumption.
Qed.

Lemma test_set_stage_footprints (s s1 : MainState) r :
  footprints_in unit_ s ->
  test_set_stage E in_dir unit_ s = (r, s1) ->
  footprints_in unit_ s1.
Proof.
  unfold test_set_stage, footprints_in. intros [HM HT] H.
  bind_cases H; [destruct x as [X_test y_test];
                 bind_cases H; [bind_cases H; [bind_cases H|]|]|].
  all: repeat match goal with
         | H : in_env (ext _) _ = (_, _) |- _ =>
             apply in_env_ext_inv in H as [? [? ?]]
         | H : test_spaces_append _ _ = (_, _) |- _ =>
             unfold test_spaces_append in H; apply update_run in H as [? ->]
         | H : set_X_test_shape _ _ = (_, _) |- _ =>
             unfold set_X_test_shape in H; apply update_run in H as [? ->]
         | H : ret _ _ = (_, _) |- _ => unfold ret in H; injection H as ? ?
         end; subst; simpl in *;
       repeat match goal with H : vars _ = _ |- _ => rewrite H end;
       simpl; try (split; assumption); try discriminate.
  split; [assumption|]. apply Forall_app. split; [assumption|].
  constructor; [|constructor].
  eapply get_test_set_space_value. eassumption.
Qed.

Lemma evaluate_stage_footprints mp pp (X : ndarray) y (s s1 : MainState) r :
  footprints_in unit_ s ->
  evaluate_stage E nums_average mp pp X y s = (r, s1) ->
  footprints_in unit_ s1.
Proof.
  unfold footprints_in. intros [HM HT] H.
  apply evaluate_stage_effect in H as (au & tt & new & Hl & _).
  unfold lists_and_log in Hl. injection Hl as _ _ -> -> _.
  split; assumption.
Qed.

Lemma repeat_step_footprints (i : nat) (s : MainState) :
  footprints_in unit_ s ->
  footprints_in unit_
    (repeat_step E dataset_name model_name in_dir unit_ nums_average i s).2.
Proof.
  intros HI. unfold repeat_step, bind. rewrite in_env_run. simpl.
  set (s0 := {| env := _; vars := vars s |}).
  assert (HI0 : footprints_in unit_ s0) by exact HI.
  clearbody s0. unfold try_except, repeat_body.
  destruct (bind (load_stage E model_name in_dir unit_ i) _ s0)
    as [r s1] eqn:Hb.
  assert (HI1 : footprints_in unit_ s1).
  { bind_cases Hb.
    - let_pair Hb. bind_cases Hb.
      + let_pair Hb.
        eapply evaluate_stage_footprints; [|exact Hb].
        eapply test_set_stage_footprints; [|eassumption].
        eapply load_stage_footprints; eassumption.
      + eapply test_set_stage_footprints; [|eassumption].
        eapply load_stage_footprints; eassumption.
    - eapply load_stage_footprints; eassumption. }
  destruct r as [[]|x]; [exact HI1|].
  rewrite repeat_handler_run. exact HI1.
Qed.

Lemma for_each_footprints (l : list nat) (s : MainState) :
  footprints_in unit_ s ->
  footprints_in unit_
    (for_each l (repeat_step E dataset_name model_name in_dir unit_
                             nums_average) s).2.
Proof.
  revert s. induction l as [|i l IH]; intros s HI; [exact HI|].
  cbn [for_each]. unfold bind.
  destruct (repeat_step_effect E dataset_name model_name in_dir unit_
              nums_average i s) as (s1 & ? & ? & ? & ? & ? & Hstep & _).
  pose proof (repeat_step_footprints i s HI) as H1.
  rewrite Hstep in *. simpl in H1. apply IH. exact H1.
Qed.

End Footprints.

(** [main] gathers its footprints in KB and in nothing else: every entry
    of [model_spaces] and of [test_spaces] in [res] is a whole number of
    bytes divided by 1e3 (so none of them is NaN), the 'MB' branch and the
    pass-through branch of [format_unit] are never taken. *)
Theorem main_footprints_are_in_KB
    (dataset_name model_name feat_set : string) (is_gs : bool)
    (nums_average : nat) (s : MainState) :
  exists res s',
    main_res E dataset_name model_name feat_set is_gs nums_average s
    = (Ok res, s') /\
    Forall is_KB (res_model_spaces res) /\
    Forall is_KB (res_test_spaces res).
Proof.
  unfold main_res, repeat_loop.
  set (in_dir := pth_join "speedup/data/models" _).
  set (s0 := {| env := {| world := world (env s);
                          log := log (env s)
                                 ++ [InfoStart dataset_name model_name
                                               feat_set in_dir] |};
                vars := initial_vars |}).
  destruct (for_each_step_effect E dataset_name model_name in_dir "KB"
              nums_average (seq 0 n_repeats) s0) as (s1 & Hloop & _).
  assert (HI : footprints_in "KB" s1).
  { pose proof (for_each_footprints dataset_name model_name in_dir "KB"
                  nums_average (seq 0 n_repeats) s0) as H.
    rewrite Hloop in H. apply H. split; constructor. }
  eexists _, _. split.
  - unfold bind at 1. rewrite in_env_run. cbn [fst snd emit].
    unfold bind at 1. unfold update at 1. fold s0.
    rewrite (bind_ok _ _ _ _ _ Hloop).
    unfold bind, get_vars. rewrite !in_env_run. reflexivity.
  - cbn [res_model_spaces res_test_spaces]. exact HI.
Qed.


(** *** Files and directories *)

Lemma pth_join_relative (a b : string) :
  String.prefix "/" b = false -> pth_join a [b] = dir_prefix a +:+ b.
Proof.
  intros Hb. unfold pth_join, dir_prefix. cbn [fold_left]. rewrite Hb.
  destruct (decide (a = "")) as [->|_]; [reflexivity|].
  destruct (ends_with_slash a); [reflexivity|].
  rewrite append_assoc. reflexivity.
Qed.

Lemma append_inj_r (s1 s2 t1 t2 : string) :
  String.length t1 = String.length t2 ->
  s1 +:+ t1 = s2 +:+ t2 -> s1 = s2 /\ t1 = t2.
Proof.
  intros Hlen. revert s2. induction s1 as [|c s1 IH]; intros [|d s2] H.
  - auto.
  - exfalso. rewrite append_nil_l in H. subst t1.
    rewrite append_cons in Hlen. simpl in Hlen.
    rewrite length_append in Hlen. lia.
  - exfalso. rewrite append_nil_l in H. subst t2.
    rewrite append_cons in Hlen. simpl in Hlen.
    rewrite length_append in Hlen. lia.
  - rewrite !append_cons in H. injection H as -> H.
    destruct (IH _ H) as [-> ->]. auto.
Qed.

Lemma model_params_file_eq (in_dir : string) (i : nat) :
  model_params_file in_dir i
  = dir_prefix in_dir +:+ "repeat_" +:+ str_of_nat i +:+ ".model.model_params".
Proof. apply pth_join_relative. reflexivity. Qed.

Lemma project_params_file_eq (in_dir : string) (i : nat) :
  project_params_file in_dir i
  = dir_prefix in_dir +:+ "repeat_" +:+ str_of_nat i
      +:+ ".model.project_params".
Proof. apply pth_join_relative. reflexivity. Qed.

(** Each repeat loads its own two parameter files: the names differ from
    one repeat index to another, and a detector file is never a projection
    file. The failure to load the detector file of repeat [i] is the
    failure of that repeat at its first step, before anything is appended.
    The test set, in contrast, is read from the one file
    [Test_set-repeat_0.dat] of the directory by every repeat. *)
Theorem repeat_files_are_distinct
    (model_name in_dir unit_ : string) (i j : nat) :
  (i <> j ->
   model_params_file in_dir i <> model_params_file in_dir j /\
   project_params_file in_dir i <> project_params_file in_dir j) /\
  model_params_file in_dir i <> project_params_file in_dir j /\
  (forall (s : MainState) (x : exn) (w' : World),
     load_params E (model_params_file in_dir i) (world (env s))
     = (Raise x, w') ->
     load_stage E model_name in_dir unit_ i s
     = (Raise x, {| env := {| world := w'; log := log (env s) |};
                    vars := vars s |})) /\
  (forall (s : MainState) (x : exn) (w' : World),
     load_test_set E (test_set_file in_dir) (world (env s)) = (Raise x, w') ->
     test_set_stage E in_dir unit_ s
     = (Raise x, {| env := {| world := w'; log := log (env s) |};
                    vars := vars s |})).
Proof.
  split; [|split; [|split]].
  - intros Hij. split; intros H.
    + rewrite !model_params_file_eq in H.
      apply String.app_inj in H. apply (String.app_inj "repeat_") in H.
      apply append_inj_r in H as [H _]; [|reflexivity].
      apply Hij. unfold str_of_nat in H.
      exact (pretty_nat_inj _ _ H).
    + rewrite !project_params_file_eq in H.
      apply String.app_inj in H. apply (String.app_inj "repeat_") in H.
      apply append_inj_r in H as [H _]; [|reflexivity].
      apply Hij. unfold str_of_nat in H.
      exact (pretty_nat_inj _ _ H).
  - intros H. rewrite model_params_file_eq, project_params_file_eq in H.
    apply String.app_inj in H. apply (String.app_inj "repeat_") in H.
    change ".model.model_params" with (".model.mode" +:+ "l_params") in H.
    change ".model.project_params" with (".model.projec" +:+ "t_params") in H.
    rewrite <- !append_assoc in H.
    apply append_inj_r in H as [_ H]; [|reflexivity]. discriminate.
  - intros s x w' H. unfold load_stage.
    apply bind_raise. apply in_env_ext_raise. exact H.
  - intros s x w' H. unfold test_set_stage.
    apply bind_raise. apply in_env_ext_raise. exact H.
Qed.

Lemma pth_join_snoc (a : string) (l : list string) (b : string) :
  exists pre, pth_join a (l ++ [b]) = pre +:+ b.
Proof.
  unfold pth_join. rewrite fold_left_app. cbn [fold_left].
  set (path := fold_left _ l a).
  destruct (String.prefix "/" b); [exists ""; reflexivity|].
  destruct (decide (path = "")); [exists path; reflexivity|].
  destruct (ends_with_slash path); [exists path; reflexivity|].
  exists (path +:+ "/"). rewrite append_assoc. reflexivity.
Qed.

(** The directory read and the directory written both end with the
    component [model_name-std_False_center_False-d_5-cov], where [cov] is
    'None' as soon as 'OCSVM' occurs in [model_name] (whether or not
    'diag' occurs too), 'diag' when 'diag' occurs without 'OCSVM', and
    'full' otherwise. *)
Theorem directories_end_with_model_dir
    (dataset_name model_name feat_set : string) (is_gs : bool) :
  (exists pre,
     in_dir_of dataset_name model_name feat_set is_gs
     = pre +:+ model_dir model_name) /\
  (exists pre,
     out_dir_of dataset_name model_name feat_set is_gs
     = pre +:+ model_dir model_name) /\
  model_dir model_name
  = model_name +:+ "-std_False_center_False-d_5-"
      +:+ GMM_covariance_type model_name /\
  (occurs_in "OCSVM" model_name -> GMM_covariance_type model_name = "None") /\
  (~ occurs_in "OCSVM" model_name -> occurs_in "diag" model_name ->
   GMM_covariance_type model_name = "diag") /\
  (~ occurs_in "OCSVM" model_name -> ~ occurs_in "diag" model_name ->
   GMM_covariance_type model_name = "full").
Proof.
  assert (Hsub : exists pre,
             sub_dir dataset_name model_name feat_set is_gs
             = pre +:+ model_dir model_name).
  { exact (pth_join_snoc "src_dst"
             [feat_set +:+ "-header_False"; dataset_name;
              "before_proj_False" +:+ "-gs_" +:+ str_of_bool is_gs]
             (model_dir model_name)). }
  destruct Hsub as [pre Hsub].
  split; [|split; [|split; [|split; [|split]]]].
  - destruct (pth_join_snoc "speedup/data/models" []
                (sub_dir dataset_name model_name feat_set is_gs)) as [p Hp].
    exists (p +:+ pre). unfold in_dir_of.
    change [sub_dir dataset_name model_name feat_set is_gs]
      with ([] ++ [sub_dir dataset_name model_name feat_set is_gs]).
    rewrite Hp, Hsub, append_assoc. reflexivity.
  - destruct (pth_join_snoc "speedup/out/models_res" []
                (sub_dir dataset_name model_name feat_set is_gs)) as [p Hp].
    exists (p +:+ pre). unfold out_dir_of.
    change [sub_dir dataset_name model_name feat_set is_gs]
      with ([] ++ [sub_dir dataset_name model_name feat_set is_gs]).
    rewrite Hp, Hsub, append_assoc. reflexivity.
  - unfold model_dir.
    change "-std_False_center_False-d_5-"
      with ("-std_False" +:+ "_center_False" +:+ "-d_5" +:+ "-").
    rewrite !append_assoc. reflexivity.
  - intros H. apply str_in_occurs in H. unfold GMM_covariance_type.
    rewrite H. reflexivity.
  - intros HO Hd. apply str_in_not_occurs in HO. apply str_in_occurs in Hd.
    unfold GMM_covariance_type. rewrite HO, Hd. reflexivity.
  - intros HO Hd. apply str_in_not_occurs in HO. apply str_in_not_occurs in Hd.
    unfold GMM_covariance_type. rewrite HO, Hd. reflexivity.
Qed.

End MoreFacts.

(** ** The further facts at work in the small world *)

Module DemoMoreFacts.

Import Demo DemoFailures.

(** A Nystrom projection in front of a GMM. *)
Lemma recreate_selects_by_substring_witness :
  exists project params model,
    recreate E0 (tagged "Nystrom-GMM(full)") projection_params
    = Ok ("Nystrom-GMM(full)", project, params, model) /\
    class_of model = GMM /\
    (exists p, project = Some p /\ class_of p = NYSTROM).
Proof.
  eexists _, _, _.
  refine ((fun Hrec =>
             conj Hrec
               (let H := recreate_selects_by_substring E0 _ _ _ _ _ _ Hrec in
                conj (proj2 (proj1 (proj2 H)) _)
                     (proj2 (proj1 (proj2 (proj2 (proj2 H)))) _))) _).
  - split; [exists "Nystrom-", "(full)"; reflexivity|].
    apply str_in_not_occurs. reflexivity.
  - split; [exists "", "-GMM(full)"; reflexivity|].
    apply str_in_not_occurs. reflexivity.
  - vm_compute. reflexivity.
Defined.

(** A KJL projection in front of a one-class SVM: the 'is_kjl' flag and a
    KJL object. *)
Lemma recreate_flags_match_projection_witness :
  exists project params model,
    recreate E0 (tagged "KJL-OCSVM(rbf)") projection_params
    = Ok ("KJL-OCSVM(rbf)", project, params, model) /\
    ~ (flag_set params "is_kjl" = true /\
       flag_set params "is_nystrom" = true) /\
    forall (X : ndarray) (w : World),
      projection_block E0 params project X w
      = match project with
        | Some p => transform E0 p X w
        | None => (Ok X, w)
        end.
Proof.
  eexists _, _, _.
  refine ((fun Hrec =>
             conj Hrec
               (proj2 (proj2
                  (recreate_flags_match_projection E0 _ _ _ _ _ _ Hrec)))) _).
  vm_compute. reflexivity.
Defined.

(** For the tag 'OCSVM(rbf)' the projection mapping and the GMM keys of
    the detector mapping are not read. *)
Lemma recreate_reads_only_required_keys_witness :
  evaluate_model E0 (tagged "OCSVM(rbf)") projection_params
                 X_demo y_demo default_nums true
  = evaluate_model E0 (delete "weights_" (tagged "OCSVM(rbf)")) ∅
                   X_demo y_demo default_nums true.
Proof.
  refine (proj2 (recreate_reads_only_required_keys E0
                   (tagged "OCSVM(rbf)")
                   (delete "weights_" (tagged "OCSVM(rbf)"))
                   projection_params ∅ "OCSVM(rbf)" _ _ _ _)
            X_demo y_demo default_nums true).
  - vm_compute. reflexivity.
  - vm_compute. reflexivity.
  - intros k Hk. simpl in Hk. apply elem_of_nil in Hk. destruct Hk.
  - intros k Hk. simpl in Hk. list_cases Hk; subst k; vm_compute; reflexivity.
Defined.

(** A KJL projection in front of an isolation forest, with an empty
    projection mapping. *)
Lemma no_detector_never_returns_witness :
  (exists k,
     k ∈ required_keys (projection_class "KJL-IF(100)") /\
     (∅ : gmap string (pyval value)) !! k = None /\
     evaluate_model E0 (tagged "KJL-IF(100)") ∅ X_demo y_demo default_nums
                    true e0
     = (Raise (KeyError k), e0)) \/
  (Forall (fun k => is_Some ((∅ : gmap string (pyval value)) !! k))
          (required_keys (projection_class "KJL-IF(100)")) /\
   evaluate_model E0 (tagged "KJL-IF(100)") ∅ X_demo y_demo default_nums
                  true e0
   = (Raise NotImplementedError, e0)).
Proof.
  apply (no_detector_never_returns E0 (tagged "KJL-IF(100)") ∅ "KJL-IF(100)"
           X_demo y_demo default_nums true e0); vm_compute; reflexivity.
Defined.

(** The detector answers in the first two of twenty runs. *)
Lemma evaluate_model_stops_at_first_failure_witness :
  exists e2,
    evaluate_model E_tired (tagged "OCSVM(rbf)") ∅ X_demo y_demo
                   default_nums true e0
    = (Raise (ValueError "Input contains NaN"), e2) /\
    List.length (test_time_lines (log e2))
    = (List.length (test_time_lines (log e0)) + 2)%nat.
Proof.
  eexists.
  refine (evaluate_model_stops_at_first_failure E_tired
            (tagged "OCSVM(rbf)") ∅ X_demo y_demo default_nums 2
            _ _ _ _ e0 _ _ _ _ _ _ _ _).
  - vm_compute. reflexivity.
  - unfold default_nums. lia.
  - vm_compute. reflexivity.
  - vm_compute. reflexivity.
Defined.

Lemma evaluate_model_zero_trials_witness :
  evaluate_model E0 (tagged "OCSVM(rbf)") ∅ X_demo y_demo 0 true e0
  = (Ok (NaN, NaN), e0).
Proof.
  refine (evaluate_model_zero_trials E0 (tagged "OCSVM(rbf)") ∅ X_demo y_demo
            _ _ _ _ e0 _).
  vm_compute. reflexivity.
Defined.

(** The 'is_kjl' flag set by hand, and no projection object. *)
Lemma _test_flag_without_projection_witness :
  _test E0 (new E0 OCSVM) X_demo y_demo
        (<["is_kjl" := true]> no_projection) None e0
  = (Raise (AttributeError "'NoneType' object has no attribute 'transform'"),
     e0).
Proof.
  apply (_test_flag_without_projection E0 (new E0 OCSVM) X_demo y_demo
           (<["is_kjl" := true]> no_projection) w0 w0 []).
  - left. vm_compute. reflexivity.
  - reflexivity.
Defined.

(** Five repeats of an isolation forest. *)
Lemma main_without_detector_fails_every_repeat_witness :
  exists res s',
    main_res E0 "CTU1" "IF(100)" "iat_size" true default_nums s0
    = (Ok res, s') /\
    res_aucs res = [] /\
    res_test_times res = [] /\
    List.length (tracebacks (log (env s')))
    = (List.length (tracebacks (log (env s0))) + 5)%nat /\
    List.length (error_lines (log (env s')))
    = (List.length (error_lines (log (env s0))) + 5)%nat.
Proof.
  apply (main_without_detector_fails_every_repeat E0 "CTU1" "IF(100)"
           "iat_size" true default_nums s0); reflexivity.
Defined.

(** The five repeats are evaluated and the disk is full. *)
Lemma main_write_failure_is_not_caught_witness :
  exists s',
    main E_full "CTU1" "OCSVM(rbf)" "iat_size" true default_nums s0
    = (Raise (OtherException "OSError"), s').
Proof.
  eexists.
  refine (main_write_failure_is_not_caught E_full "CTU1" "OCSVM(rbf)"
            "iat_size" true default_nums s0 _ _ _ _ _ (or_introl _)).
  - vm_compute. reflexivity.
  - vm_compute. reflexivity.
Defined.

Lemma main_returns_out_file_witness :
  (exists s',
     main E0 "CTU1" "OCSVM(rbf)" "iat_size" true default_nums s0
     = (Ok (out_file_of "CTU1" "OCSVM(rbf)" "iat_size" true), s')) /\
  out_file_of "CTU1" "OCSVM(rbf)" "iat_size" true
  = "speedup/out/models_res/src_dst/iat_size-header_False/CTU1/before_proj_False-gs_True/OCSVM(rbf)-std_False_center_False-d_5-None/CTU1-OCSVM(rbf).dat".
Proof.
  split; [|vm_compute; reflexivity].
  eexists.
  refine (main_returns_out_file E0 "CTU1" "OCSVM(rbf)" "iat_size" true
            default_nums s0 _ _ _ _ _ _ _ _).
  - vm_compute. reflexivity.
  - vm_compute. reflexivity.
  - vm_compute. reflexivity.
Defined.

(** The detector files of the first two repeats. *)
Lemma repeat_files_are_distinct_witness :
  model_params_file "models" 0 <> model_params_file "models" 1 /\
  project_params_file "models" 0 <> project_params_file "models" 1 /\
  model_params_file "models" 0 <> project_params_file "models" 0.
Proof.
  split; [|split].
  - apply (proj1 (repeat_files_are_distinct E0 "OCSVM(rbf)" "models" "KB"
                    0 1)). lia.
  - apply (proj1 (repeat_files_are_distinct E0 "OCSVM(rbf)" "models" "KB"
                    0 1)). lia.
  - apply (proj1 (proj2 (repeat_files_are_distinct E0 "OCSVM(rbf)" "models"
                           "KB" 0 0))).
Defined.

(** 'OCSVM' wins over 'diag'. *)
Lemma directories_end_with_model_dir_witness :
  GMM_covariance_type "KJL-OCSVM(diag)" = "None" /\
  GMM_covariance_type "KJL-GMM(diag)" = "diag" /\
  GMM_covariance_type "KJL-GMM(full)" = "full".
Proof.
  split; [|split].
  - apply (proj1 (proj2 (proj2 (proj2
             (directories_end_with_model_dir "CTU1" "KJL-OCSVM(diag)"
                "iat_size" true))))).
    exists "KJL-", "(diag)". reflexivity.
  - apply (proj1 (proj2 (proj2 (proj2 (proj2
             (directories_end_with_model_dir "CTU1" "KJL-GMM(diag)"
                "iat_size" true)))))).
    + apply str_in_not_occurs. reflexivity.
    + exists "KJL-GMM(", ")". reflexivity.
  - apply (proj2 (proj2 (proj2 (proj2 (proj2
             (directories_end_with_model_dir "CTU1" "KJL-GMM(full)"
                "iat_size" true)))))).
    + apply str_in_not_occurs. reflexivity.
    + apply str_in_not_occurs. reflexivity.
Defined.

End DemoMoreFacts.
